(** * dma-vtt: scene store, visibility filter, realtime hub and login

    A shallow embedding of [src/dma_vtt/database.py], [auth.py] and
    [server.py], and the properties of the specification checked on it.

    Conventions of the model:

    - The relational store is a record of tables, each table a finite map
      from the integer primary key to the row ([gmap Z row]), so a primary
      key names at most one row.  A row record carries the other columns of
      its model class, typed as [database.py] declares them: a
      [nullable=False] column is plain, a nullable one is an [option], a
      [JSON] column holds a JSON value (Python's [None] is stored there as
      JSON null).  Float columns are rationals: the program only stores and
      returns them (a double that is no number is not modelled).
    - A query without ORDER BY returns rows by ascending primary key; a
      new row gets the key after the largest one.
    - JSON payloads and response bodies are [json] values; a Python [dict]
      is a [gmap string json], so a key that is missing differs from a key
      bound to an empty list.
    - The role the specification calls gm is the role string 'admin'.
    - The realtime handlers pass the values of a payload to the ORM as
      they are; server.py checks none of them.  What a column makes of a
      value is decided by the column type, the driver and the database,
      which are no code of the program: a [Dialect] is a parameter of the
      handlers and says, for a value compared with a primary key or bound to
      a column, what is compared or stored, or that the statement raises.
      A property is stated for every dialect, and where it depends on what
      becomes of a value, that is a hypothesis on the dialect.  A row that
      would hold a value that is not of the column's type (SQLite stores a
      text that spells no number in an Integer column) is no row of this
      model: the handlers give no result there.
    - [db.session.commit()] can fail.  It fails when [None] is written
      into a [nullable=False] column that has no default, and when the
      dialect refuses a value.  A [ForeignKey] that points to no row is
      refused only by a backend that enforces foreign keys (the default
      PostgreSQL URL of [server.py] does, SQLite as shipped does not), so
      this is a parameter, [enforce_fk].  It also fails when the pending
      objects refer to each other in a circle, so that there is no order to
      insert them in.  A failed commit rolls the transaction back and
      raises, so the statements after it do not run.
    - [argon2.verify], [generate_jwt] and [decode_jwt] are library calls
      and parameters of the functions that use them; so is
      [hash_password], which takes the salt it draws as an argument.
    - An HTTP route body takes the request context that its decorator
      attached and the fields read from the JSON body with [data.get]. *)

From Stdlib Require Import ZArith QArith.
From stdpp Require Import gmap strings list fin_maps sorting.

Set Warnings "-register-all".
#[local] Open Scope Z_scope.

(** ** JSON values *)

Inductive json : Type :=
  | JNull
  | JBool (b : bool)
  | JInt (z : Z)
  | JFloat (q : Q)
  | JStr (s : string)
  | JArr (l : list json)
  | JObj (m : gmap string json).

(** [data.get(key)]: [None] when the key is missing. *)
Definition get (data : gmap string json) (key : string) : json :=
  default JNull (data !! key).

(** [None] or the JSON encoding of an optional column. *)
Definition opt_json {A} (f : A → json) (o : option A) : json :=
  from_option f JNull o.

(** *** What the database makes of a payload value *)

(** What [Model.query.get(ident)] compares [ident] with. *)
Inductive Ident :=
  | Key (k : Z)      (* [ident] is compared as the integer [k] *)
  | NoKey            (* [ident] equals no key: no row is found *)
  | BadIdent.        (* the query raises *)

(** What a column makes of a value other than [None] that is bound to it. *)
Inductive Bound (A : Type) :=
  | Takes (a : A)    (* the column holds [a] *)
  | Refuses          (* the statement raises *)
  | Keeps.           (* the value is stored, in a form that is not of the
                        column's type *)
Arguments Takes {A} a.
Arguments Refuses {A}.
Arguments Keeps {A}.

(** The conversions of a backend: of an identifier given to [query.get],
    and of a value bound to an [Integer], a [Float], a [String(n)] or a
    [Text] column. *)
Record Dialect := mkDialect {
  identify : json → Ident;
  bind_integer : json → Bound Z;
  bind_float : json → Bound Q;
  bind_string : nat → json → Bound string;
  bind_text : json → Bound string
}.

(** The columns of one statement together: the statement raises when one
    of its values is refused. *)
Definition bound_ap {A B} (f : Bound (A → B)) (a : Bound A) : Bound B :=
  match f, a with
  | Refuses, _ | _, Refuses => Refuses
  | Keeps, _ | _, Keeps => Keeps
  | Takes f, Takes a => Takes (f a)
  end.

Infix "<*>" := bound_ap (at level 61, left associativity).

(** A [nullable=False] column without a default: [None] violates the
    constraint. *)
Definition required {A} (bind : json → Bound A) (v : json) : Bound A :=
  match v with JNull => Refuses | _ => bind v end.

(** A column declared with [default=d]: the ORM leaves a [None] attribute
    out of the INSERT and the default is used. *)
Definition with_default {A} (d : A) (bind : json → Bound A) (v : json)
  : Bound A :=
  match v with JNull => Takes d | _ => bind v end.

(** ** database.py: the models *)

Module User.
Record t := mk {
  username : string;
  password_hash : string;
  role : string;
  registered_by : option Z
}.
End User.

Module Scene.
Record t := mk {
  name : string;
  thumbnail_path : option string;
  active : bool;
  owner_id : Z;
  background_layer_id : option Z;
  foreground_layer_id : option Z
}.

Definition set_active (b : bool) (s : t) : t :=
  mk (name s) (thumbnail_path s) b (owner_id s)
     (background_layer_id s) (foreground_layer_id s).
End Scene.

Module Layer.
Record t := mk {
  scene_id : Z;
  name : string;
  order_index : Z;
  type : string;
  visible : bool
}.

Definition set_visible (b : bool) (l : t) : t :=
  mk (scene_id l) (name l) (order_index l) (type l) b.
End Layer.

Module Token.
Record t := mk {
  layer_id : Z;
  image_path : string;
  x : Q;
  y : Q;
  scale : Q;
  rotation : Q;
  z_index : Z;
  metadata : json
}.
End Token.

Module Drawing.
Record t := mk {
  layer_id : Z;
  type : string;
  points : json;
  color : string;
  stroke_width : Q
}.
End Drawing.

Module TextElement.
Record t := mk {
  layer_id : Z;
  x : Q;
  y : Q;
  text : string;
  font_size : Z;
  color : string;
  style : string
}.
End TextElement.

(** ** The store *)

Record Store := mkStore {
  users : gmap Z User.t;
  scenes : gmap Z Scene.t;
  layers : gmap Z Layer.t;
  tokens : gmap Z Token.t;
  drawings : gmap Z Drawing.t;
  text_elements : gmap Z TextElement.t
}.

Definition set_scenes (m : gmap Z Scene.t) (st : Store) : Store :=
  mkStore (users st) m (layers st) (tokens st) (drawings st) (text_elements st).
Definition set_layers (m : gmap Z Layer.t) (st : Store) : Store :=
  mkStore (users st) (scenes st) m (tokens st) (drawings st) (text_elements st).
Definition set_tokens (m : gmap Z Token.t) (st : Store) : Store :=
  mkStore (users st) (scenes st) (layers st) m (drawings st) (text_elements st).
Definition set_drawings (m : gmap Z Drawing.t) (st : Store) : Store :=
  mkStore (users st) (scenes st) (layers st) (tokens st) m (text_elements st).
Definition set_text_elements (m : gmap Z TextElement.t) (st : Store) : Store :=
  mkStore (users st) (scenes st) (layers st) (tokens st) (drawings st) m.

(** [Model.query.all()]: the rows of a table, by ascending primary key (no
    query of the program has an ORDER BY). *)
Definition by_key {A} (r1 r2 : Z * A) : Prop := r1.1 ≤ r2.1.

#[global] Instance by_key_dec {A} (r1 r2 : Z * A) : Decision (by_key r1 r2) :=
  decide (r1.1 ≤ r2.1).

Definition all {A} (tbl : gmap Z A) : list (Z * A) :=
  merge_sort by_key (map_to_list tbl).

(** [Model.query.get(ident)] with the identifier taken from a payload: the
    row whose key the dialect compares [ident] equal to. *)
Inductive Lookup (A : Type) :=
  | Row (k : Z) (row : A)
  | NoRow                 (* [None] is returned *)
  | QueryFails.           (* the query raises *)
Arguments Row {A} k row.
Arguments NoRow {A}.
Arguments QueryFails {A}.

Definition query_get {A} (d : Dialect) (tbl : gmap Z A) (ident : json)
  : Lookup A :=
  match identify d ident with
  | Key k => match tbl !! k with Some row => Row k row | None => NoRow end
  | NoKey => NoRow
  | BadIdent => QueryFails
  end.

(** A one-to-many [relationship]: the rows whose foreign key is [parent]. *)
Definition related {A} (fk : A → Z) (parent : Z) (tbl : gmap Z A)
  : list (Z * A) :=
  filter (λ r, fk r.2 = parent) (all tbl).

(** The primary key an INSERT is given: one past the largest key. *)
Definition next_id {A} (tbl : gmap Z A) : Z :=
  Z.succ (foldr Z.max 0 (all tbl).*1).

(** [db.session.add(row); db.session.commit()] for one new row. *)
Definition add {A} (row : A) (tbl : gmap Z A) : Z * gmap Z A :=
  let k := next_id tbl in (k, <[k := row]> tbl).

(** ** HTTP responses and realtime events *)

Inductive Response :=
  | Jsonify (status : Z) (body : json)   (* [jsonify(...), status] *)
  | Abort (status : Z).                  (* [abort(status)]: the framework's error page *)

Definition status_code (r : Response) : Z :=
  match r with Jsonify s _ => s | Abort s => s end.

Definition message (msg : string) : json := JObj {[ "message" := JStr msg ]}.

(** [socketio.emit(event, data, skip_sid=...)]. *)
Record Emit := mkEmit {
  event : string;
  data : gmap string json;
  skip_sid : option string
}.

(** The clients an emitted event is delivered to. *)
Definition recipients (clients : list string) (e : Emit) : list string :=
  filter (λ c, skip_sid e ≠ Some c) clients.

(** What a query or a [db.session.commit()] that fails raises.  The class
    of the exception (IntegrityError for a constraint, the ORM's or the
    driver's own for a value that is refused) is not told apart. *)
Inductive Exn := DatabaseError.

(** What a realtime handler leaves behind. *)
Record Outcome := mkOutcome {
  store : Store;
  emitted : list Emit;
  raised : option Exn
}.

(** [request.user_id], [request.user_role], set by the decorators. *)
Record Request := mkRequest {
  user_id : Z;
  user_role : string
}.

(** ** auth.py *)

Section Auth.
(** [argon2.verify], [generate_jwt] (signing, at the time of the call)
    and [decode_jwt] ([None] for [jwt.InvalidTokenError]). *)
Variable verify_password : string → string → bool.
Variable generate_jwt : Z → string → string.
Variable decode_jwt : string → option Request.

(** [User.query.filter_by(username=username).first()]. *)
Definition find_user (st : Store) (username : string)
  : option (Z * User.t) :=
  head (filter (λ r, User.username r.2 = username) (all (users st))).

Definition authenticate_user (st : Store) (username password : string)
  : option (Z * User.t) * option string :=
  match find_user st username with
  | Some (uid, user) =>
      if verify_password password (User.password_hash user)
      then (Some (uid, user), Some (generate_jwt uid (User.role user)))
      else (None, None)
  | None => (None, None)
  end.

(** [login_required]: the request context, or the response returned
    early.  [token] is what [get_token_from_request] found. *)
Definition login_required (token : option string) : Response + Request :=
  match token with
  | None | Some "" => inl (Jsonify 401 (message "Authentication token is missing"))
  | Some tok =>
      match decode_jwt tok with
      | Some payload => inr payload
      | None => inl (Jsonify 401 (message "Invalid authentication token"))
      end
  end.

Definition admin_required (token : option string) : Response + Request :=
  match token with
  | None | Some "" => inl (Jsonify 401 (message "Authentication token is missing"))
  | Some tok =>
      match decode_jwt tok with
      | Some payload =>
          if bool_decide (user_role payload ≠ "admin")
          then inl (Jsonify 403 (message "Admin privileges required"))
          else inr payload
      | None => inl (Jsonify 401 (message "Invalid authentication token"))
      end
  end.

(** ** server.py: POST /api/auth/login *)

(** Python's [not s] for a value that is a string or [None]. *)
Definition falsy (s : option string) : bool :=
  match s with None | Some "" => true | Some _ => false end.

Definition login (st : Store) (username password : option string)
  : Response :=
  if falsy username || falsy password
  then Jsonify 400 (message "Username and password are required")
  else
    match username, password with
    | Some username, Some password =>
        match authenticate_user st username password with
        | (Some (uid, user), token) =>
            Jsonify 200 (JObj {[
              "token" := opt_json JStr token;
              "user" := JObj {[
                "id" := JInt uid;
                "username" := JStr (User.username user);
                "role" := JStr (User.role user) ]} ]})
        | (None, _) => Jsonify 401 (message "Invalid credentials")
        end
    | _, _ => Jsonify 400 (message "Username and password are required")
    end.
End Auth.

(** ** The unit of work *)

(** [db.session.commit()] inserts the pending objects one after the other;
    a row that holds a foreign key to another pending object, through a
    relationship, can only be inserted after that object, whose key it
    needs (no relationship of database.py is declared [post_update]).
    [refers o] are the objects that [o] refers to in this way.
    [insert_order] gives the order of the INSERTs: again and again the
    first pending object whose references are all inserted.  When objects
    are left and none of them is free, they refer to each other in a
    circle: the flush raises CircularDependencyError and nothing is
    inserted. *)
Fixpoint insert_order (refers : nat → list nat) (fuel : nat)
    (pending inserted : list nat) : option (list nat) :=
  match pending, fuel with
  | [], _ => Some (reverse inserted)
  | _, O => None
  | _, S fuel =>
      match list_find (λ o, refers o ⊆ inserted) pending with
      | Some (i, o) =>
          insert_order refers fuel (delete i pending) (o :: inserted)
      | None => None
      end
  end.

(** ** server.py: the scene routes *)

Section Backend.
(** Whether the backend checks [ForeignKey] columns at commit. *)
Variable enforce_fk : bool.

Definition fk_ok {A} (tbl : gmap Z A) (k : Z) : bool :=
  negb enforce_fk || bool_decide (is_Some (tbl !! k)).

Definition scene_json (scene_id : Z) (scene : Scene.t) : gmap string json :=
  {[ "id" := JInt scene_id;
     "name" := JStr (Scene.name scene);
     "thumbnail_path" := opt_json JStr (Scene.thumbnail_path scene);
     "active" := JBool (Scene.active scene) ]}.

(** GET /api/scenes *)
Definition get_scenes (req : Request) (st : Store) : Response :=
  let scenes :=
    if bool_decide (user_role req = "admin") then all (scenes st)
    else filter (λ r, Scene.active r.2 = true) (all (scenes st)) in
  Jsonify 200 (JObj {[
    "scenes" := JArr ((λ r, JObj (scene_json r.1 r.2)) <$> scenes) ]}).

(** POST /api/scenes.  [name] is [data.get('name')].  The route builds
    four objects and links them through relationships, not through ids:
    [scene.layers.append(layer)] makes the layer refer to the scene
    ([Layer.scene_id]), [scene.background_layer = ...] and
    [scene.foreground_layer = ...] make the scene refer to two of the
    layers ([Scene.background_layer_id], [foreground_layer_id]).  Object 0
    is the scene, 1 to 3 are the layers in the order they were appended. *)
Definition create_scene_refers (o : nat) : list nat :=
  match o with
  | 0%nat => [1; 3]%nat
  | _ => [0%nat]
  end.

(** [Scene.owner_id] is [ForeignKey('users.id'), nullable=False]
    (database.py:64). *)
Definition create_scene (req : Request) (name : option string) (st : Store)
  : Response * Store :=
  if falsy name then (Jsonify 400 (message "Scene name is required"), st)
  else
    let name := default "" name in   (* not [None] here *)
    (* db.session.add(scene); db.session.commit() *)
    match insert_order create_scene_refers 4 [0; 1; 2; 3]%nat [] with
    | None => (Abort 500, st)        (* CircularDependencyError *)
    | Some order =>
        let scene_id := next_id (scenes st) in
        let background_layer :=
          Layer.mk scene_id "Background" 0 "background" true in
        let player_layer := Layer.mk scene_id "Player" 1 "player" true in
        let foreground_layer :=
          Layer.mk scene_id "Foreground" 2 "custom" true in
        let '(background_id, layers1) := add background_layer (layers st) in
        let '(player_id, layers2) := add player_layer layers1 in
        let '(foreground_id, layers3) := add foreground_layer layers2 in
        let scene :=
          Scene.mk name None false (user_id req)
                   (Some background_id) (Some foreground_id) in
        if fk_ok (users st) (user_id req) then
          (Jsonify 201 (JObj {[
             "message" := JStr "Scene created successfully";
             "scene" := JObj (scene_json scene_id scene) ]}),
           set_layers layers3
             (set_scenes (<[scene_id := scene]> (scenes st)) st))
        else (Abort 500, st)
    end.

Definition token_json (r : Z * Token.t) : json :=
  JObj {[ "id" := JInt r.1;
          "image_path" := JStr (Token.image_path r.2);
          "x" := JFloat (Token.x r.2);
          "y" := JFloat (Token.y r.2);
          "scale" := JFloat (Token.scale r.2);
          "rotation" := JFloat (Token.rotation r.2);
          "z_index" := JInt (Token.z_index r.2);
          "metadata" := Token.metadata r.2 ]}.

Definition drawing_json (r : Z * Drawing.t) : json :=
  JObj {[ "id" := JInt r.1;
          "type" := JStr (Drawing.type r.2);
          "points" := Drawing.points r.2;
          "color" := JStr (Drawing.color r.2);
          "stroke_width" := JFloat (Drawing.stroke_width r.2) ]}.

Definition text_json (r : Z * TextElement.t) : json :=
  JObj {[ "id" := JInt r.1;
          "x" := JFloat (TextElement.x r.2);
          "y" := JFloat (TextElement.y r.2);
          "text" := JStr (TextElement.text r.2);
          "font_size" := JInt (TextElement.font_size r.2);
          "color" := JStr (TextElement.color r.2);
          "style" := JStr (TextElement.style r.2) ]}.

(** The body of the loop over [scene.layers] in [get_scene]. *)
Definition layer_data (req : Request) (st : Store) (r : Z * Layer.t)
  : gmap string json :=
  let layer_data : gmap string json :=
    {[ "id" := JInt r.1;
       "name" := JStr (Layer.name r.2);
       "order_index" := JInt (Layer.order_index r.2);
       "type" := JStr (Layer.type r.2);
       "visible" := JBool (Layer.visible r.2) ]} in
  if bool_decide (Layer.type r.2 = "player")
     || bool_decide (user_role req = "admin")
  then
    <["text_elements" :=
        JArr (text_json <$> related TextElement.layer_id r.1 (text_elements st))]>
    (<["drawings" :=
        JArr (drawing_json <$> related Drawing.layer_id r.1 (drawings st))]>
    (<["tokens" :=
        JArr (token_json <$> related Token.layer_id r.1 (tokens st))]>
     layer_data))
  else layer_data.

(** GET /api/scenes/<scene_id>.  [None] is the [abort(404)] of
    [get_or_404]. *)
Definition get_scene (req : Request) (scene_id : Z) (st : Store) : Response :=
  match scenes st !! scene_id with
  | None => Abort 404
  | Some scene =>
      if bool_decide (user_role req ≠ "admin") && negb (Scene.active scene)
      then Jsonify 404 (message "Scene not found")
      else
        let layers :=
          (λ r, JObj (layer_data req st r))
            <$> related Layer.scene_id scene_id (layers st) in
        Jsonify 200 (JObj {[
          "scene" := JObj (<["layers" := JArr layers]> (scene_json scene_id scene)) ]})
  end.

(** POST /api/scenes/<scene_id>/activate *)
Definition activate_scene (scene_id : Z) (st : Store)
  : Response * Store * list Emit :=
  match scenes st !! scene_id with
  | None => (Abort 404, st, [])
  | Some scene =>
      (* Scene.query.update({'active': False}) *)
      let cleared := Scene.set_active false <$> scenes st in
      (* scene.active = True *)
      let activated := alter (Scene.set_active true) scene_id cleared in
      (Jsonify 200 (JObj {[
         "message" := JStr "Scene activated successfully";
         "scene" := JObj {[ "id" := JInt scene_id;
                            "name" := JStr (Scene.name scene);
                            "active" := JBool true ]} ]}),
       set_scenes activated st,
       [mkEmit "scene_activated"
               {[ "scene_id" := JInt scene_id;
                  "name" := JStr (Scene.name scene) ]} None])
  end.

(** A run of activation requests, oldest first. *)
Definition activate_all (ids : list Z) (st : Store) : Store :=
  foldl (λ st scene_id, (activate_scene scene_id st).1.2) st ids.
End Backend.

(** ** server.py: the realtime handlers *)

Section Realtime.
Variable d : Dialect.
Variable enforce_fk : bool.

(** The commit went through: the new store and what was emitted. *)
Definition committed (st : Store) (out : list Emit) : Outcome :=
  mkOutcome st out None.

(** The query or the commit failed: the transaction is rolled back, the
    exception leaves the handler and the [emit] after it is not reached. *)
Definition rejected (st : Store) : Outcome :=
  mkOutcome st [] (Some DatabaseError).

(** A [ForeignKey] column: where foreign keys are enforced the row it
    names has to exist. *)
Definition references {A} (tbl : gmap Z A) (k : Bound Z) : Bound Z :=
  match k with
  | Takes k => if fk_ok enforce_fk tbl k then Takes k else Refuses
  | _ => k
  end.

(** The assignments of [handle_token_moved] (server.py:295-300) and what
    the UPDATE makes of them.  [Token.x], [y], [rotation] and [scale] are
    [Float, nullable=False] (database.py:121-124). *)
Definition moved_token (data : gmap string json) (token : Token.t)
  : Bound Token.t :=
  let x := get data "x" in
  let y := get data "y" in
  let rotation := get data "rotation" in
  let scale := get data "scale" in
  let x := required (bind_float d) x in              (* token.x = x *)
  let y := required (bind_float d) y in              (* token.y = y *)
  let rotation := match rotation with               (* if rotation is not None *)
                  | JNull => Takes (Token.rotation token)
                  | _ => bind_float d rotation
                  end in
  let scale := match scale with                     (* if scale is not None *)
               | JNull => Takes (Token.scale token)
               | _ => bind_float d scale
               end in
  Takes (λ x y scale rotation,
           Token.mk (Token.layer_id token) (Token.image_path token)
                    x y scale rotation
                    (Token.z_index token) (Token.metadata token))
    <*> x <*> y <*> scale <*> rotation.

(** [sid] is [request.sid], the sender.  The result is [None] where the
    store would hold a row that is none of this model. *)
Definition handle_token_moved (sid : string) (data : gmap string json)
    (st : Store) : option Outcome :=
  let token_id := get data "token_id" in
  match query_get d (tokens st) token_id with
  | Row k token =>                              (* if token: *)
      match moved_token data token with
      | Takes token =>                          (* db.session.commit() *)
          Some (committed (set_tokens (<[k := token]> (tokens st)) st)
                          [mkEmit "token_moved" data (Some sid)])
      | Refuses => Some (rejected st)
      | Keeps => None
      end
  | NoRow => Some (mkOutcome st [] None)        (* nothing is done *)
  | QueryFails => Some (rejected st)
  end.

(** [Drawing.layer_id] is [Integer, ForeignKey('layers.id'),
    nullable=False], [type] and [color] are [String(20), nullable=False],
    [points] is [JSON], [stroke_width] is [Float, nullable=False,
    default=1.0] (database.py:144-148). *)
Definition new_drawing (data : gmap string json) (st : Store)
  : Bound Drawing.t :=
  let layer_id := get data "layer_id" in
  let drawing_type := get data "type" in
  let points := get data "points" in
  let color := get data "color" in
  let stroke_width := get data "stroke_width" in
  Takes Drawing.mk
    <*> references (layers st) (required (bind_integer d) layer_id)
    <*> required (bind_string d 20) drawing_type
    <*> Takes points
    <*> required (bind_string d 20) color
    <*> with_default 1%Q (bind_float d) stroke_width.

Definition handle_drawing_created (sid : string) (data : gmap string json)
    (st : Store) : option Outcome :=
  match new_drawing data st with
  | Takes drawing =>                          (* db.session.add, commit *)
      let '(k, drawings) := add drawing (drawings st) in
      let data := <["id" := JInt k]> data in      (* data['id'] = drawing.id *)
      Some (committed (set_drawings drawings st)
                      [mkEmit "drawing_created" data (Some sid)])
  | Refuses => Some (rejected st)
  | Keeps => None
  end.

(** [TextElement.layer_id] is [Integer, ForeignKey('layers.id'),
    nullable=False], [x] and [y] are [Float, nullable=False], [text] is
    [Text, nullable=False]; [font_size] is [Integer], [color] and [style]
    are [String(20)], with the defaults 12, '#000000' and 'normal'
    (database.py:167-173). *)
Definition new_text_element (data : gmap string json) (st : Store)
  : Bound TextElement.t :=
  let layer_id := get data "layer_id" in
  let x := get data "x" in
  let y := get data "y" in
  let text := get data "text" in
  let font_size := get data "font_size" in
  let color := get data "color" in
  let style := get data "style" in
  Takes TextElement.mk
    <*> references (layers st) (required (bind_integer d) layer_id)
    <*> required (bind_float d) x
    <*> required (bind_float d) y
    <*> required (bind_text d) text
    <*> with_default 12 (bind_integer d) font_size
    <*> with_default "#000000"%string (bind_string d 20) color
    <*> with_default "normal"%string (bind_string d 20) style.

Definition handle_text_created (sid : string) (data : gmap string json)
    (st : Store) : option Outcome :=
  match new_text_element data st with
  | Takes text_element =>                     (* db.session.add, commit *)
      let '(k, text_elements) := add text_element (text_elements st) in
      let data := <["id" := JInt k]> data in      (* data['id'] = text_element.id *)
      Some (committed (set_text_elements text_elements st)
                      [mkEmit "text_created" data (Some sid)])
  | Refuses => Some (rejected st)
  | Keeps => None
  end.
End Realtime.

(** At most one scene of the store is active. *)
Definition at_most_one_active (st : Store) : Prop :=
  ∀ i j si sj,
    scenes st !! i = Some si → scenes st !! j = Some sj →
    Scene.active si = true → Scene.active sj = true → i = j.

(** ** Stores used in the examples *)

Definition two_active : Store :=
  mkStore ∅
    (<[1 := Scene.mk "Dungeon" None true 1 None None]>
       (<[2 := Scene.mk "Cave" None true 1 None None]> ∅))
    ∅ ∅ ∅ ∅.

(** Scene 1 is active and has a background layer with token 6 and a player
    layer, not flagged visible, with token 5; scene 2 is inactive; there is
    no scene 3. *)
Definition dungeon : Store :=
  mkStore
    (<[7 := User.mk "gm" "hash-of-secret" "admin" None]>
       (<[8 := User.mk "bob" "hash-of-hunter2" "player" (Some 7)]> ∅))
    (<[1 := Scene.mk "Dungeon" None true 7 (Some 1) None]>
       (<[2 := Scene.mk "Cave" None false 7 None None]> ∅))
    (<[1 := Layer.mk 1 "Background" 0 "background" true]>
       (<[2 := Layer.mk 1 "Player" 1 "player" false]> ∅))
    (<[5 := Token.mk 2 "hero.png" 0 0 1 0 0 JNull]>
       (<[6 := Token.mk 1 "map.png" 0 0 1 0 0 JNull]> ∅))
    ∅ ∅.

Definition player_request : Request := mkRequest 8 "player".
Definition gm_request : Request := mkRequest 7 "admin".

(** A [decode_jwt] for the examples: two tokens are valid. *)
Definition decode_example (token : string) : option Request :=
  if bool_decide (token = "bob-token") then Some player_request
  else if bool_decide (token = "gm-token") then Some gm_request
  else None.

(** Two stores that agree on everything but the [visible] column. *)
Definition differ_only_in_visible (st1 st2 : Store) : Prop :=
  users st1 = users st2 ∧ scenes st1 = scenes st2
  ∧ tokens st1 = tokens st2 ∧ drawings st1 = drawings st2
  ∧ text_elements st1 = text_elements st2
  ∧ Layer.set_visible true <$> layers st1
    = Layer.set_visible true <$> layers st2.

(** [dungeon] with the [visible] flag of every layer flipped. *)
Definition dungeon_flipped : Store :=
  set_layers
    ((λ l, Layer.set_visible (negb (Layer.visible l)) l) <$> layers dungeon)
    dungeon.

(** *** A dialect for the examples *)

Definition int64 (k : Z) : bool := bool_decide (- 2 ^ 63 ≤ k < 2 ^ 63).

(** Python's [float(k)] as a number: the double nearest to the integer
    [k], a tie going to the even mantissa; [None] (OverflowError) when
    that is beyond the doubles. *)
Definition float_of_int (k : Z) : option Z :=
  let a := Z.abs k in
  let e := Z.log2 a - 52 in
  if e <=? 0 then Some k
  else
    let q := Z.shiftr a e in
    let r := a - Z.shiftl q e in
    let half := Z.shiftl 1 (e - 1) in
    let m := if r <? half then q
             else if half <? r then q + 1
             else if Z.even q then q else q + 1 in
    let v := Z.shiftl m e in
    if 2 ^ 1024 <=? v then None else Some (Z.sgn k * v).

(** The number that a string of decimal digits spells. *)
Fixpoint digits (acc : Z) (s : string) : option Z :=
  match s with
  | EmptyString => Some acc
  | String a rest =>
      let n := Z.of_N (Ascii.N_of_ascii a) - 48 in
      if bool_decide (0 ≤ n ≤ 9) then digits (10 * acc + n) rest else None
  end.

Definition numeral (s : string) : option Z :=
  match s with EmptyString => None | _ => digits 0 s end.

(** The dialect of the examples.  For a key and for an Integer column it
    takes a JSON integer of 64 bits and a string of digits that spells one;
    it keeps another string in an Integer column as the text it is.  For a
    Float column it takes a JSON float as it is, and a JSON integer or a
    string of digits as the nearest double.  For a String or Text column it
    takes a JSON string.  Whatever else it is given, it refuses. *)
Definition example_dialect : Dialect :=
  mkDialect
    (λ v, match v with
          | JNull => NoKey
          | JInt k => if int64 k then Key k else BadIdent
          | JStr s => match numeral s with
                      | Some k => if int64 k then Key k else NoKey
                      | None => NoKey
                      end
          | _ => BadIdent
          end)
    (λ v, match v with
          | JInt k => if int64 k then Takes k else Refuses
          | JStr s => match numeral s with
                      | Some k => if int64 k then Takes k else Keeps
                      | None => Keeps
                      end
          | _ => Refuses
          end)
    (λ v, match v with
          | JInt k => from_option (λ z, Takes (inject_Z z)) Refuses
                                  (float_of_int k)
          | JFloat q => Takes q
          | JStr s => from_option (λ z, Takes (inject_Z z)) Refuses
                                  (numeral s ≫= float_of_int)
          | _ => Refuses
          end)
    (λ n v, match v with JStr s => Takes s | _ => Refuses end)
    (λ v, match v with JStr s => Takes s | _ => Refuses end).

(** Realtime payloads of the examples. *)
Definition move_5 : gmap string json :=
  {[ "token_id" := JInt 5; "x" := JInt 10; "y" := JInt 20 ]}.

Definition move_unknown : gmap string json :=
  {[ "token_id" := JInt 99; "x" := JInt 10; "y" := JInt 20 ]}.


(** A move whose fields are not of the columns' types: the token is named
    by a string and x is an integer that no double holds, 2^53 + 1. *)
Definition move_5_untyped : gmap string json :=
  {[ "token_id" := JStr "5"; "x" := JInt 9007199254740993;
     "y" := JStr "20" ]}.

Definition line_points : json :=
  JArr [JArr [JInt 0; JInt 0]; JArr [JInt 3; JInt 4]].

Definition line_without_layer : gmap string json :=
  {[ "type" := JStr "line"; "points" := line_points;
     "color" := JStr "#ff0000"; "stroke_width" := JInt 2 ]}.

Definition line_on (layer_id : Z) : gmap string json :=
  <["layer_id" := JInt layer_id]> line_without_layer.

Definition note_without_layer : gmap string json :=
  {[ "x" := JInt 1; "y" := JInt 2; "text" := JStr "trap";
     "font_size" := JInt 14; "color" := JStr "#000000";
     "style" := JStr "bold" ]}.

Definition note_on (layer_id : Z) : gmap string json :=
  <["layer_id" := JInt layer_id]> note_without_layer.

(** Library stand-ins for the examples: a hash is "hash-of-" followed by
    the password, a token names the user id and the role. *)
Definition verify_example (password password_hash : string) : bool :=
  bool_decide (password_hash = "hash-of-" +:+ password).

Definition jwt_example (uid : Z) (role : string) : string :=
  "jwt-for-" +:+ role.



(** [dungeon] after alice was registered. *)
Definition dungeon_with_alice : Store :=
  mkStore (<[9 := User.mk "alice" "hash-of-secret" "player" (Some 7)]>
             (users dungeon))
          (scenes dungeon) (layers dungeon) (tokens dungeon)
          (drawings dungeon) (text_elements dungeon).

(** ** auth.py: the request token and registration *)

(** [s.split(sep)] for a one-character separator: the pieces between the
    separators, empty pieces included; never the empty list. *)
Fixpoint split (sep : Ascii.ascii) (s : string) : list string :=
  match s with
  | EmptyString => [EmptyString]
  | String a rest =>
      if Ascii.eqb a sep then EmptyString :: split sep rest
      else match split sep rest with
           | piece :: pieces => String a piece :: pieces
           | [] => [String a EmptyString]
           end
  end.

(** [auth_header] is [request.headers.get('Authorization')].  The prefix
    test makes index 1 of the split exist. *)
Definition get_token_from_request (auth_header : option string)
  : option string :=
  match auth_header with
  | Some header =>
      if negb (falsy auth_header) && String.prefix "Bearer " header
      then split Ascii.Space header !! 1%nat
      else None
  | None => None
  end.

(** What a call returns or raises. *)
Inductive Try (A : Type) :=
  | Returns (a : A)
  | ValueError (msg : string)
  | CommitRefused.
Arguments Returns {A} a.
Arguments ValueError {A} msg.
Arguments CommitRefused {A}.

Definition set_users (m : gmap Z User.t) (st : Store) : Store :=
  mkStore m (scenes st) (layers st) (tokens st) (drawings st) (text_elements st).

Section Registration.
(** [hash_password] salts: [salt] stands for the randomness of one call.
    [User.registered_by] is a nullable [ForeignKey('users.id')]. *)
Variable hash_password : string → string → string.
Variable verify_password : string → string → bool.
Variable generate_jwt : Z → string → string.
Variable decode_jwt : string → option Request.
Variable enforce_fk : bool.

Definition register_user (salt : string) (st : Store)
    (username password role : string) (registered_by : option Z)
  : Try (Z * User.t * Store) :=
  match find_user st username with
  | Some existing_user =>
      ValueError ("Username '" +:+ username +:+ "' already exists")
  | None =>
      let user :=
        User.mk username (hash_password salt password) role registered_by in
      if from_option (fk_ok enforce_fk (users st)) true registered_by then
        let '(uid, users) := add user (users st) in
        Returns (uid, user, set_users users st)
      else CommitRefused
  end.

(** The double quote character, for messages that contain it. *)
Definition dquote : string := String Ascii.DoubleQuote EmptyString.

(** POST /api/auth/register.  [username], [password] are [data.get(...)];
    [role] is [None] when the body has no 'role' key, which
    [data.get('role', 'player')] turns into 'player'. *)
Definition register (salt : string) (req : Request)
    (username password role : option string) (st : Store)
  : Response * Store :=
  let role := default "player" role in
  if falsy username || falsy password
  then (Jsonify 400 (message "Username and password are required"), st)
  else if negb (bool_decide (role ∈ ["admin"; "player"]))
  then (Jsonify 400 (message ("Role must be either " +:+ dquote +:+ "admin"
                              +:+ dquote +:+ " or " +:+ dquote +:+ "player"
                              +:+ dquote)), st)
  else
    match username, password with
    | Some username, Some password =>
        match register_user salt st username password role
                            (Some (user_id req)) with
        | Returns (uid, user, st') =>
            (Jsonify 201 (JObj {[
               "message" := JStr "User registered successfully";
               "user" := JObj {[
                 "id" := JInt uid;
                 "username" := JStr (User.username user);
                 "role" := JStr (User.role user) ]} ]}), st')
        | ValueError msg => (Jsonify 400 (message msg), st)
        | CommitRefused => (Abort 500, st)
        end
    | _, _ => (Jsonify 400 (message "Username and password are required"), st)
    end.

(** [create_tables], run before the first request: [admin_username] and
    [admin_password] are the environment variables ADMIN_USERNAME and
    ADMIN_PASSWORD ([None] when unset).  Returns the store and the line
    logged. *)
Definition create_tables (salt : string)
    (admin_username admin_password : option string) (st : Store)
  : Store * option string :=
  match head (filter (λ r, User.role r.2 = "admin") (all (users st))) with
  | Some admin => (st, None)
  | None =>
      match register_user salt st (default "admin" admin_username)
                          (default "admin" admin_password) "admin" None with
      | Returns (uid, user, st') => (st', Some "Admin user created")
      | ValueError msg => (st, Some ("Admin user creation failed: " +:+ msg))
      | CommitRefused => (st, None)   (* not reached: there is no registrar *)
      end
  end.

(** *** The routes with their decorators *)

(** [@login_required] or [@admin_required] around a route body: the body
    runs with the request context, or the decorator's response is returned
    and nothing else happens. *)
Definition decorated {A} (guard : Response + Request)
    (denied : Response → A) (body : Request → A) : A :=
  match guard with inl response => denied response | inr req => body req end.

Definition api_register (salt : string) (auth_header : option string)
    (username password role : option string) (st : Store)
  : Response * Store :=
  decorated (admin_required decode_jwt (get_token_from_request auth_header))
            (λ response, (response, st))
            (λ req, register salt req username password role st).

Definition api_get_scenes (auth_header : option string) (st : Store)
  : Response :=
  decorated (login_required decode_jwt (get_token_from_request auth_header))
            (λ response, response)
            (λ req, get_scenes req st).

Definition api_create_scene (auth_header : option string)
    (name : option string) (st : Store) : Response * Store :=
  decorated (admin_required decode_jwt (get_token_from_request auth_header))
            (λ response, (response, st))
            (λ req, create_scene enforce_fk req name st).

Definition api_get_scene (auth_header : option string) (scene_id : Z)
    (st : Store) : Response :=
  decorated (login_required decode_jwt (get_token_from_request auth_header))
            (λ response, response)
            (λ req, get_scene req scene_id st).

Definition api_activate_scene (auth_header : option string) (scene_id : Z)
    (st : Store) : Response * Store * list Emit :=
  decorated (admin_required decode_jwt (get_token_from_request auth_header))
            (λ response, (response, st, []))
            (λ req, activate_scene scene_id st).
End Registration.

(** No two users have the same username ([unique=True]). *)
Definition unique_usernames (st : Store) : Prop :=
  ∀ i j ui uj,
    users st !! i = Some ui → users st !! j = Some uj →
    User.username ui = User.username uj → i = j.

(** Whether a character occurs in a string. *)
Fixpoint has_char (c : Ascii.ascii) (s : string) : bool :=
  match s with
  | EmptyString => false
  | String a rest => Ascii.eqb a c || has_char c rest
  end.

(** Library stand-ins for the further examples: the hash ignores the salt,
    and [decode_round] reads back the token [jwt_example] makes for user 9
    with role 'player' and for user 1 with role 'admin'. *)
Definition hash_example (salt password : string) : string :=
  "hash-of-" +:+ password.

Definition decode_round (token : string) : option Request :=
  if bool_decide (token = jwt_example 9 "player") then Some (mkRequest 9 "player")
  else if bool_decide (token = jwt_example 1 "admin") then Some (mkRequest 1 "admin")
  else None.

Definition empty_store : Store := mkStore ∅ ∅ ∅ ∅ ∅ ∅.

(** A second move, of token 6, and a move of token 5 that carries all four
    fields. *)
Definition move_6 : gmap string json :=
  {[ "token_id" := JInt 6; "x" := JInt 7; "y" := JInt 8;
     "rotation" := JInt 90 ]}.

Definition move_5_full : gmap string json :=
  {[ "token_id" := JInt 5; "x" := JInt 1; "y" := JInt 2;
     "rotation" := JInt 45; "scale" := JInt 3 ]}.

(** * Properties *)

(** ** Tables and primary keys *)

Lemma foldr_max_bound (ks : list Z) (k : Z) :
  k ∈ ks → k ≤ foldr Z.max 0 ks.
Proof.
  induction ks as [|k' ks IH]; intros Hk.
  - by apply elem_of_nil in Hk.
  - cbn [foldr]. apply elem_of_cons in Hk as [-> | Hin].
    + apply Z.le_max_l.
    + etrans; [exact (IH Hin) | apply Z.le_max_r].
Qed.

Lemma foldr_max_nonneg (ks : list Z) : 0 ≤ foldr Z.max 0 ks.
Proof.
  induction ks as [|k ks IH]; cbn [foldr]; [done|].
  etrans; [exact IH | apply Z.le_max_r].
Qed.

Lemma foldr_max_cases (ks : list Z) :
  foldr Z.max 0 ks = 0 ∨ foldr Z.max 0 ks ∈ ks.
Proof.
  induction ks as [|k ks IH]; cbn [foldr]; [by left|].
  destruct (Z.max_spec k (foldr Z.max 0 ks)) as [[_ ->] | [_ ->]].
  - destruct IH as [-> | Hin]; [by left|].
    right. by apply list_elem_of_further.
  - right. apply list_elem_of_here.
Qed.

Lemma elem_of_all {A} (tbl : gmap Z A) (k : Z) (row : A) :
  (k, row) ∈ all tbl ↔ tbl !! k = Some row.
Proof.
  unfold all. rewrite merge_sort_Permutation. apply elem_of_map_to_list.
Qed.

Lemma NoDup_all {A} (tbl : gmap Z A) : NoDup (all tbl).
Proof.
  unfold all. rewrite merge_sort_Permutation. apply NoDup_map_to_list.
Qed.

Lemma elem_of_keys {A} (tbl : gmap Z A) (k : Z) :
  k ∈ (all tbl).*1 ↔ is_Some (tbl !! k).
Proof.
  rewrite list_elem_of_fmap. split.
  - intros [[k' v] [-> Hin]]. apply elem_of_all in Hin. by exists v.
  - intros [v Hv]. exists (k, v). split; [done|]. by apply elem_of_all.
Qed.

Lemma next_id_fresh {A} (tbl : gmap Z A) : tbl !! next_id tbl = None.
Proof.
  apply eq_None_not_Some. intros Hk.
  apply elem_of_keys, foldr_max_bound in Hk. unfold next_id in Hk. lia.
Qed.

Lemma next_id_positive {A} (tbl : gmap Z A) : 0 < next_id tbl.
Proof.
  unfold next_id. pose proof (foldr_max_nonneg (all tbl).*1). lia.
Qed.

Lemma next_id_insert {A} (tbl : gmap Z A) (row : A) :
  next_id (<[next_id tbl := row]> tbl) = next_id tbl + 1.
Proof.
  pose proof (next_id_positive tbl) as Hpos.
  set (k := next_id tbl) in *.
  set (tbl' := <[k := row]> tbl).
  assert (Hle : k ≤ foldr Z.max 0 (all tbl').*1).
  { apply foldr_max_bound, elem_of_keys. subst tbl'.
    rewrite lookup_insert_eq. by eexists. }
  unfold next_id at 1. fold tbl'.
  destruct (foldr_max_cases (all tbl').*1) as [H0 | Hin]; [lia|].
  apply elem_of_keys in Hin. subst tbl'.
  destruct (decide (k = foldr Z.max 0 (all (<[k:=row]> tbl)).*1)) as [<- | Hne]; [lia|].
  rewrite lookup_insert_ne in Hin by done.
  apply elem_of_keys, foldr_max_bound in Hin. unfold k, next_id in *. lia.
Qed.

(** ** Scene activation *)

Lemma activate_scene_missing (scene_id : Z) (st : Store) :
  scenes st !! scene_id = None →
  activate_scene scene_id st = (Abort 404, st, []).
Proof. intros H. unfold activate_scene. by rewrite H. Qed.

Lemma activate_scene_scenes (scene_id : Z) (st : Store) (j : Z) :
  is_Some (scenes st !! scene_id) →
  scenes (activate_scene scene_id st).1.2 !! j
  = Scene.set_active (bool_decide (j = scene_id)) <$> scenes st !! j.
Proof.
  intros [scene Hs]. unfold activate_scene. rewrite Hs. cbn.
  destruct (decide (j = scene_id)) as [-> | Hne].
  - rewrite lookup_alter_eq, lookup_fmap, Hs, bool_decide_eq_true_2 by done.
    by destruct scene.
  - rewrite lookup_alter_ne, lookup_fmap, bool_decide_eq_false_2 by done.
    done.
Qed.

Lemma activate_scene_keeps_ids (scene_id : Z) (st : Store) (j : Z) :
  is_Some (scenes (activate_scene scene_id st).1.2 !! j)
  ↔ is_Some (scenes st !! j).
Proof.
  destruct (scenes st !! scene_id) as [scene|] eqn:Hs.
  - rewrite activate_scene_scenes by eauto. by rewrite fmap_is_Some.
  - by rewrite activate_scene_missing.
Qed.

Lemma activate_scene_one_active (scene_id : Z) (st : Store) :
  is_Some (scenes st !! scene_id) →
  at_most_one_active (activate_scene scene_id st).1.2.
Proof.
  intros Hs i j si sj Hi Hj Ai Aj.
  rewrite activate_scene_scenes in Hi, Hj by done.
  apply fmap_Some in Hi as (si0 & _ & ->), Hj as (sj0 & _ & ->).
  cbn in Ai, Aj. apply bool_decide_eq_true in Ai, Aj. congruence.
Qed.

Lemma activate_scene_preserves (scene_id : Z) (st : Store) :
  at_most_one_active st →
  at_most_one_active (activate_scene scene_id st).1.2.
Proof.
  intros Hinv. destruct (scenes st !! scene_id) as [scene|] eqn:Hs.
  - apply activate_scene_one_active. eauto.
  - by rewrite activate_scene_missing.
Qed.

Lemma activate_all_snoc (ids : list Z) (scene_id : Z) (st : Store) :
  activate_all (ids ++ [scene_id]) st
  = (activate_scene scene_id (activate_all ids st)).1.2.
Proof. unfold activate_all. by rewrite foldl_app. Qed.

Lemma activate_all_keeps_ids (ids : list Z) (st : Store) (j : Z) :
  is_Some (scenes (activate_all ids st) !! j) ↔ is_Some (scenes st !! j).
Proof.
  induction ids as [|scene_id ids IH] using rev_ind; [done|].
  by rewrite activate_all_snoc, activate_scene_keeps_ids.
Qed.

(** C2 (as amended).  From a store with at most one active scene, or after
    a run of activation requests of which at least one names an existing
    scene, at most one scene is active.  An activation of an existing scene
    leaves exactly the target active (every flag is cleared, then the
    target's is set) and touches no other table or column; an activation of
    an id that names no scene answers 404 and changes nothing. *)
Theorem activate_all_at_most_one_active (ids : list Z) (st : Store) :
  at_most_one_active st
  ∨ (∃ scene_id, scene_id ∈ ids ∧ is_Some (scenes st !! scene_id)) →
  at_most_one_active (activate_all ids st)
  ∧ (∀ scene_id s, scenes s !! scene_id = None →
       activate_scene scene_id s = (Abort 404, s, []))
  ∧ (∀ scene_id s, is_Some (scenes s !! scene_id) →
       let s' := (activate_scene scene_id s).1.2 in
       (∀ j, scenes s' !! j
             = Scene.set_active (bool_decide (j = scene_id)) <$> scenes s !! j)
       ∧ s' = set_scenes (scenes s') s).
Proof.
  intros H. split; [|split].
  - revert H. induction ids as [|scene_id ids IH] using rev_ind.
    + intros [Hinv | (scene_id & Hin & _)]; [done|].
      by apply elem_of_nil in Hin.
    + rewrite activate_all_snoc. intros [Hinv | (k & Hin & Hk)].
      { apply activate_scene_preserves, IH. by left. }
      destruct (scenes (activate_all ids st) !! scene_id) as [scene|] eqn:Hs.
      * apply activate_scene_one_active. eauto.
      * rewrite activate_scene_missing by done. apply IH. right.
        exists k. split; [|done].
        apply elem_of_app in Hin as [Hin | Hin]; [done|].
        apply list_elem_of_singleton in Hin as ->.
        apply (activate_all_keeps_ids ids) in Hk. rewrite Hs in Hk.
        by destruct Hk.
  - apply activate_scene_missing.
  - intros scene_id st0 Hs. cbn zeta. split.
    + intros j. by apply activate_scene_scenes.
    + destruct Hs as [scene Hs]. unfold activate_scene. by rewrite Hs.
Qed.

Lemma two_active_not_at_most_one : ¬ at_most_one_active two_active.
Proof.
  intros H.
  specialize (H 1 2 (Scene.mk "Dungeon" None true 1 None None)
                (Scene.mk "Cave" None true 1 None None)).
  discriminate H; reflexivity.
Qed.

(** C2, counterexample.  Scenes 1 and 2 are both active and no scene has
    id 99: the activation request for 99 is answered 404, clears nothing,
    and two scenes are active after it. *)
Lemma activate_missing_scene_keeps_two_active :
  activate_scene 99 two_active = (Abort 404, two_active, [])
  ∧ ¬ at_most_one_active (activate_all [99] two_active).
Proof.
  split; [reflexivity|].
  change (activate_all [99] two_active) with two_active.
  apply two_active_not_at_most_one.
Qed.

Lemma activate_all_at_most_one_active_witness :
  at_most_one_active (activate_all [99; 2; 1] two_active)
  ∧ scenes (activate_all [99; 2; 1] two_active) !! 1
    = Some (Scene.mk "Dungeon" None true 1 None None)
  ∧ scenes (activate_all [99; 2; 1] two_active) !! 2
    = Some (Scene.mk "Cave" None false 1 None None).
Proof.
  split; [|split; reflexivity].
  apply (activate_all_at_most_one_active [99; 2; 1] two_active).
  right. exists 2. split; [|by eexists].
  apply list_elem_of_further, list_elem_of_here.
Defined.

(** ** Scene detail *)

Lemma elem_of_related {A} (fk : A → Z) (parent : Z) (tbl : gmap Z A) r :
  r ∈ related fk parent tbl ↔ tbl !! r.1 = Some r.2 ∧ fk r.2 = parent.
Proof.
  unfold related. rewrite list_elem_of_filter.
  destruct r as [k v]. rewrite elem_of_all. cbn. tauto.
Qed.

Lemma NoDup_related {A} (fk : A → Z) (parent : Z) (tbl : gmap Z A) :
  NoDup (related fk parent tbl).
Proof. apply NoDup_filter, NoDup_all. Qed.

Lemma get_scene_missing req scene_id st :
  scenes st !! scene_id = None → get_scene req scene_id st = Abort 404.
Proof. intros H. unfold get_scene. by rewrite H. Qed.

Lemma get_scene_hidden req scene_id scene st :
  scenes st !! scene_id = Some scene →
  user_role req ≠ "admin" → Scene.active scene = false →
  get_scene req scene_id st = Jsonify 404 (message "Scene not found").
Proof.
  intros Hs Hr Ha. unfold get_scene.
  by rewrite Hs, Ha, bool_decide_eq_true_2.
Qed.

Lemma get_scene_shown req scene_id scene st :
  scenes st !! scene_id = Some scene →
  user_role req = "admin" ∨ Scene.active scene = true →
  get_scene req scene_id st
  = Jsonify 200 (JObj {[
      "scene" := JObj (<["layers" :=
          JArr ((λ r, JObj (layer_data req st r))
                  <$> related Layer.scene_id scene_id (layers st))]>
        (scene_json scene_id scene)) ]}).
Proof.
  intros Hs Hv. unfold get_scene. rewrite Hs.
  destruct Hv as [Hr | Ha].
  - by rewrite bool_decide_eq_false_2 by (intros H; by apply H).
  - rewrite Ha. by rewrite andb_false_r.
Qed.

Lemma layer_data_columns req st r :
  layer_data req st r !! "id" = Some (JInt r.1)
  ∧ layer_data req st r !! "name" = Some (JStr (Layer.name r.2))
  ∧ layer_data req st r !! "order_index" = Some (JInt (Layer.order_index r.2))
  ∧ layer_data req st r !! "type" = Some (JStr (Layer.type r.2))
  ∧ layer_data req st r !! "visible" = Some (JBool (Layer.visible r.2)).
Proof.
  unfold layer_data.
  destruct (bool_decide (Layer.type r.2 = "player")
            || bool_decide (user_role req = "admin"));
    repeat split; reflexivity.
Qed.

Lemma layer_data_bare req st r :
  Layer.type r.2 ≠ "player" → user_role req ≠ "admin" →
  layer_data req st r !! "tokens" = None
  ∧ layer_data req st r !! "drawings" = None
  ∧ layer_data req st r !! "text_elements" = None.
Proof.
  intros Ht Hr. unfold layer_data.
  rewrite !bool_decide_eq_false_2 by done. cbn [orb].
  repeat split; reflexivity.
Qed.

Lemma layer_data_detail req st r :
  Layer.type r.2 = "player" ∨ user_role req = "admin" →
  layer_data req st r !! "tokens"
    = Some (JArr (token_json <$> related Token.layer_id r.1 (tokens st)))
  ∧ layer_data req st r !! "drawings"
    = Some (JArr (drawing_json <$> related Drawing.layer_id r.1 (drawings st)))
  ∧ layer_data req st r !! "text_elements"
    = Some (JArr (text_json <$> related TextElement.layer_id r.1 (text_elements st))).
Proof.
  intros H. unfold layer_data.
  assert (bool_decide (Layer.type r.2 = "player")
          || bool_decide (user_role req = "admin") = true) as ->.
  { destruct H as [H | H]; rewrite (bool_decide_eq_true_2 _ H);
      [done | apply orb_true_r]. }
  repeat split; reflexivity.
Qed.

(** C1 (as amended).  A scene detail fetch that is served (the requester
    is gm, or the scene is active) returns one object per layer of the
    scene, each with the layer's id, name, order_index, type and visible.
    For a non-gm requester a layer whose type is not 'player' has no
    tokens, drawings or text_elements entry at all (the keys are left out,
    not set to empty lists); a layer of type 'player', and for a gm
    requester every layer, has the three entries with every child element
    of the layer. *)
Theorem get_scene_layer_detail
    (decode_jwt : string → option Request) (token : option string)
    (req : Request) (scene_id : Z) (scene : Scene.t) (st : Store) :
  login_required decode_jwt token = inr req →
  scenes st !! scene_id = Some scene →
  user_role req = "admin" ∨ Scene.active scene = true →
  let shown := related Layer.scene_id scene_id (layers st) in
  get_scene req scene_id st
  = Jsonify 200 (JObj {[
      "scene" := JObj (<["layers" :=
          JArr ((λ r, JObj (layer_data req st r)) <$> shown)]>
        (scene_json scene_id scene)) ]})
  ∧ NoDup shown
  ∧ (∀ r, r ∈ shown ↔ layers st !! r.1 = Some r.2 ∧ Layer.scene_id r.2 = scene_id)
  ∧ ∀ r,
      let ld := layer_data req st r in
      (ld !! "id" = Some (JInt r.1)
       ∧ ld !! "name" = Some (JStr (Layer.name r.2))
       ∧ ld !! "order_index" = Some (JInt (Layer.order_index r.2))
       ∧ ld !! "type" = Some (JStr (Layer.type r.2))
       ∧ ld !! "visible" = Some (JBool (Layer.visible r.2)))
      ∧ (Layer.type r.2 ≠ "player" → user_role req ≠ "admin" →
           ld !! "tokens" = None
           ∧ ld !! "drawings" = None
           ∧ ld !! "text_elements" = None)
      ∧ (Layer.type r.2 = "player" ∨ user_role req = "admin" →
           ld !! "tokens"
             = Some (JArr (token_json <$> related Token.layer_id r.1 (tokens st)))
           ∧ ld !! "drawings"
             = Some (JArr (drawing_json <$> related Drawing.layer_id r.1 (drawings st)))
           ∧ ld !! "text_elements"
             = Some (JArr (text_json
                             <$> related TextElement.layer_id r.1 (text_elements st)))).
Proof.
  intros _ Hs Hv shown. split; [by apply get_scene_shown|].
  split; [apply NoDup_related|]. split; [intros r; apply elem_of_related|].
  intros r ld. split; [apply layer_data_columns|].
  split; [apply layer_data_bare | apply layer_data_detail].
Qed.

Lemma get_scene_layer_detail_witness :
  get_scene player_request 1 dungeon
  = Jsonify 200 (JObj {[
      "scene" := JObj (<["layers" :=
          JArr ((λ r, JObj (layer_data player_request dungeon r))
                  <$> related Layer.scene_id 1 (layers dungeon))]>
        (scene_json 1 (Scene.mk "Dungeon" None true 7 (Some 1) None))) ]}).
Proof.
  apply (get_scene_layer_detail decode_example (Some "bob-token"%string)
           player_request 1 (Scene.mk "Dungeon" None true 7 (Some 1) None)
           dungeon);
    [reflexivity | reflexivity | right; reflexivity].
Defined.

(** C1, counterexample.  A player fetches the active scene 1: the object
    returned for its background layer has the five columns of the layer and
    nothing else; tokens, drawings and text_elements are not present as
    empty collections, although the layer owns token 6. *)
Lemma get_scene_background_layer_has_no_collections :
  let background : gmap string json :=
    {[ "id" := JInt 1; "name" := JStr "Background"; "order_index" := JInt 0;
       "type" := JStr "background"; "visible" := JBool true ]} in
  get_scene player_request 1 dungeon
  = Jsonify 200 (JObj {[
      "scene" := JObj {[
        "id" := JInt 1; "name" := JStr "Dungeon"; "thumbnail_path" := JNull;
        "active" := JBool true;
        "layers" := JArr [
          JObj background;
          JObj {[ "id" := JInt 2; "name" := JStr "Player";
                  "order_index" := JInt 1; "type" := JStr "player";
                  "visible" := JBool false;
                  "tokens" := JArr [
                    JObj {[ "id" := JInt 5; "image_path" := JStr "hero.png";
                            "x" := JFloat 0; "y" := JFloat 0;
                            "scale" := JFloat 1; "rotation" := JFloat 0;
                            "z_index" := JInt 0; "metadata" := JNull ]} ];
                  "drawings" := JArr [];
                  "text_elements" := JArr [] ]} ] ]} ]})
  ∧ background !! "tokens" = None
  ∧ background !! "drawings" = None
  ∧ background !! "text_elements" = None
  ∧ related Token.layer_id 1 (tokens dungeon)
    = [(6, Token.mk 1 "map.png" 0 0 1 0 0 JNull)].
Proof.
  cbv zeta. repeat split; vm_compute; reflexivity.
Qed.

(** The status of a scene detail fetch.  For an authenticated non-gm
    requester it is 200 exactly when the scene exists and is active, and
    404 otherwise, never 403; the two kinds of 404 are told apart by what
    returns them. *)
Lemma get_scene_player_status
    (decode_jwt : string → option Request) (token : option string)
    (req : Request) (scene_id : Z) (st : Store) :
  login_required decode_jwt token = inr req →
  user_role req ≠ "admin" →
  (status_code (get_scene req scene_id st) = 200
   ↔ ∃ scene, scenes st !! scene_id = Some scene ∧ Scene.active scene = true)
  ∧ (status_code (get_scene req scene_id st) = 200
     ∨ status_code (get_scene req scene_id st) = 404)
  ∧ (∀ scene, scenes st !! scene_id = Some scene →
       Scene.active scene = false →
       get_scene req scene_id st = Jsonify 404 (message "Scene not found"))
  ∧ (scenes st !! scene_id = None → get_scene req scene_id st = Abort 404).
Proof.
  intros _ Hr.
  destruct (scenes st !! scene_id) as [scene|] eqn:Hs.
  - destruct (Scene.active scene) eqn:Ha.
    + rewrite (get_scene_shown req scene_id scene st) by auto. cbn.
      split; [|split; [by left|split; [|done]]].
      * split; [by eauto|done].
      * intros scene' [= <-] Ha'. congruence.
    + rewrite (get_scene_hidden req scene_id scene st) by done. cbn.
      split; [|split; [by right|split; [done|done]]].
      split; [done|]. intros (scene' & [= <-] & Ha'). congruence.
  - rewrite get_scene_missing by done. cbn.
    split; [|split; [by right|split; done]].
    split; [done|]. by intros (scene' & ? & _).
Qed.

Lemma get_scene_player_status_witness :
  login_required decode_example (Some "bob-token"%string) = inr player_request
  ∧ user_role player_request ≠ "admin"
  ∧ status_code (get_scene player_request 1 dungeon) = 200
  ∧ get_scene player_request 2 dungeon = Jsonify 404 (message "Scene not found").
Proof.
  assert (Hr : user_role player_request ≠ "admin") by discriminate.
  destruct (get_scene_player_status decode_example (Some "bob-token"%string)
              player_request 1 dungeon eq_refl Hr) as (H1 & _).
  destruct (get_scene_player_status decode_example (Some "bob-token"%string)
              player_request 2 dungeon eq_refl Hr) as (_ & _ & H2 & _).
  split; [reflexivity|]. split; [exact Hr|]. split.
  - apply H1. eexists. split; reflexivity.
  - apply (H2 (Scene.mk "Cave" None false 7 None None)); reflexivity.
Defined.

(** C3, at the failing input.  Scene 2 exists and is inactive, scene 3
    does not exist.  A player gets status 404 for both, but not the same
    response: the JSON message 'Scene not found' for scene 2, the
    framework's not-found page for scene 3, so the response tells whether
    the scene exists. *)
Lemma get_scene_inactive_differs_from_missing :
  scenes dungeon !! 2 = Some (Scene.mk "Cave" None false 7 None None)
  ∧ scenes dungeon !! 3 = None
  ∧ get_scene player_request 2 dungeon = Jsonify 404 (message "Scene not found")
  ∧ get_scene player_request 3 dungeon = Abort 404
  ∧ get_scene player_request 2 dungeon ≠ get_scene player_request 3 dungeon.
Proof. repeat split; try reflexivity. discriminate. Qed.

(** ** The visible flag *)

Lemma layer_data_ignores_visible req st1 st2 lid l1 l2 key :
  tokens st1 = tokens st2 → drawings st1 = drawings st2 →
  text_elements st1 = text_elements st2 →
  Layer.set_visible true l1 = Layer.set_visible true l2 →
  key ≠ "visible" →
  layer_data req st1 (lid, l1) !! key = layer_data req st2 (lid, l2) !! key.
Proof.
  intros Ht Hd Hx Hl Hkey.
  assert (delete "visible" (layer_data req st1 (lid, l1))
          = delete "visible" (layer_data req st2 (lid, l2))) as Heq.
  { unfold layer_data. cbn [fst snd]. rewrite Ht, Hd, Hx.
    destruct l1 as [s1 n1 o1 t1 v1], l2 as [s2 n2 o2 t2 v2].
    injection Hl as -> -> -> ->. cbn [Layer.type Layer.name Layer.order_index Layer.visible].
    destruct (bool_decide (t2 = "player")
              || bool_decide (user_role req = "admin")); reflexivity. }
  rewrite <- (lookup_delete_ne (layer_data req st1 (lid, l1)) "visible" key) by done.
  rewrite Heq. by apply lookup_delete_ne.
Qed.

(** C9.  Whether the child elements of a layer are part of the scene
    detail depends on the layer's type and the requester's role only.  Two
    stores that differ only in visible flags return, for every layer and
    every key other than "visible", the same entry; a layer of type
    'player' comes with all its tokens, drawings and text elements whatever
    its visible flag is, also for a non-gm requester of the active scene. *)
Theorem layer_detail_independent_of_visible
    (decode_jwt : string → option Request) (token : option string)
    (req : Request) (st1 st2 : Store) (lid : Z) (l1 l2 : Layer.t) :
  login_required decode_jwt token = inr req →
  differ_only_in_visible st1 st2 →
  layers st1 !! lid = Some l1 →
  layers st2 !! lid = Some l2 →
  (∀ key, key ≠ "visible" →
     layer_data req st1 (lid, l1) !! key = layer_data req st2 (lid, l2) !! key)
  ∧ (Layer.type l1 = "player" →
       layer_data req st1 (lid, l1) !! "visible" = Some (JBool (Layer.visible l1))
       ∧ layer_data req st1 (lid, l1) !! "tokens"
         = Some (JArr (token_json <$> related Token.layer_id lid (tokens st1)))
       ∧ layer_data req st1 (lid, l1) !! "drawings"
         = Some (JArr (drawing_json <$> related Drawing.layer_id lid (drawings st1)))
       ∧ layer_data req st1 (lid, l1) !! "text_elements"
         = Some (JArr (text_json
                         <$> related TextElement.layer_id lid (text_elements st1))))
  ∧ (∀ scene, scenes st1 !! Layer.scene_id l1 = Some scene →
       Scene.active scene = true →
       ∃ shown,
         get_scene req (Layer.scene_id l1) st1
         = Jsonify 200 (JObj {[
             "scene" := JObj (<["layers" := JArr shown]>
                                (scene_json (Layer.scene_id l1) scene)) ]})
         ∧ JObj (layer_data req st1 (lid, l1)) ∈ shown).
Proof.
  intros _ (_ & _ & Ht & Hd & Hx & Hl) H1 H2. split; [|split].
  - intros key Hkey. apply layer_data_ignores_visible; try done.
    apply (f_equal (λ m, m !! lid)) in Hl.
    rewrite !lookup_fmap, H1, H2 in Hl. cbn in Hl. congruence.
  - intros Hp. split; [apply (layer_data_columns req st1 (lid, l1))|].
    apply (layer_data_detail req st1 (lid, l1)). by left.
  - intros scene Hs Ha. eexists. split.
    + apply get_scene_shown; [done | by right].
    + apply (list_elem_of_fmap_2 (λ r, JObj (layer_data req st1 r))).
      by apply elem_of_related.
Qed.

Lemma layer_detail_independent_of_visible_witness :
  Layer.visible (Layer.mk 1 "Player" 1 "player" false) = false
  ∧ layer_data player_request dungeon
      (2, Layer.mk 1 "Player" 1 "player" false) !! "tokens"
    = Some (JArr (token_json <$> related Token.layer_id 2 (tokens dungeon)))
  ∧ layer_data player_request dungeon
      (2, Layer.mk 1 "Player" 1 "player" false) !! "tokens"
    = layer_data player_request dungeon_flipped
        (2, Layer.mk 1 "Player" 1 "player" true) !! "tokens".
Proof.
  assert (Hd : differ_only_in_visible dungeon dungeon_flipped).
  { repeat split; vm_compute; reflexivity. }
  destruct (layer_detail_independent_of_visible
              decode_example (Some "bob-token"%string) player_request
              dungeon dungeon_flipped 2
              (Layer.mk 1 "Player" 1 "player" false)
              (Layer.mk 1 "Player" 1 "player" true)
              eq_refl Hd eq_refl eq_refl) as (Hsame & Hplayer & _).
  split; [reflexivity|]. split.
  - apply Hplayer. reflexivity.
  - apply Hsame. discriminate.
Defined.
(** ** token_moved *)

Lemma recipients_skip (clients : list string) (e : Emit) (c : string) :
  c ∈ recipients clients e ↔ c ∈ clients ∧ skip_sid e ≠ Some c.
Proof. unfold recipients. rewrite list_elem_of_filter. tauto. Qed.

Lemma bound_ap_Takes {A B} (f : Bound (A → B)) (a : Bound A) (b : B) :
  f <*> a = Takes b ↔ ∃ f' a', f = Takes f' ∧ a = Takes a' ∧ b = f' a'.
Proof.
  split.
  - destruct f as [f'| |], a as [a'| |]; cbn; try done.
    intros [= <-]. by exists f', a'.
  - by intros (f' & a' & -> & -> & ->).
Qed.

Lemma bound_ap_Refuses_l {A B} (a : Bound A) :
  (Refuses : Bound (A → B)) <*> a = Refuses.
Proof. by destruct a. Qed.

Lemma bound_ap_Refuses_r {A B} (f : Bound (A → B)) : f <*> Refuses = Refuses.
Proof. by destruct f. Qed.

Lemma query_get_Row {A} (d : Dialect) (tbl : gmap Z A) ident k row :
  query_get d tbl ident = Row k row
  ↔ identify d ident = Key k ∧ tbl !! k = Some row.
Proof.
  unfold query_get. split.
  - destruct (identify d ident) as [k'| |]; try done.
    destruct (tbl !! k') as [row'|] eqn:Hk; [|done].
    by intros [= <- <-].
  - by intros [-> ->].
Qed.

(** The value a column of the token has after the assignments: the one
    the column takes for the payload's, or the stored one where the
    handler assigns only [if ... is not None]. *)
Lemma moved_token_Takes d data token token' :
  moved_token d data token = Takes token'
  ↔ ∃ x y scale rotation,
      required (bind_float d) (get data "x") = Takes x
      ∧ required (bind_float d) (get data "y") = Takes y
      ∧ match get data "scale" with
        | JNull => Takes (Token.scale token)
        | _ => bind_float d (get data "scale")
        end = Takes scale
      ∧ match get data "rotation" with
        | JNull => Takes (Token.rotation token)
        | _ => bind_float d (get data "rotation")
        end = Takes rotation
      ∧ token' = Token.mk (Token.layer_id token) (Token.image_path token)
                          x y scale rotation
                          (Token.z_index token) (Token.metadata token).
Proof.
  unfold moved_token. split.
  - intros H.
    apply bound_ap_Takes in H as (f3 & rotation & H & Hr & ->).
    apply bound_ap_Takes in H as (f2 & scale & H & Hs & ->).
    apply bound_ap_Takes in H as (f1 & y & H & Hy & ->).
    apply bound_ap_Takes in H as (f0 & x & [= <-] & Hx & ->).
    by exists x, y, scale, rotation.
  - intros (x & y & scale & rotation & -> & -> & -> & -> & ->). done.
Qed.


(** The row written for a token is written again, unchanged, when the
    same payload is assigned to it. *)
Lemma moved_token_again d data token token' :
  moved_token d data token = Takes token' →
  moved_token d data token' = Takes token'.
Proof.
  intros H.
  apply moved_token_Takes in H
    as (x & y & scale & rotation & Hx & Hy & Hs & Hr & ->).
  apply moved_token_Takes. exists x, y, scale, rotation. cbn.
  split; [done|]. split; [done|].
  split; [by destruct (get data "scale")|].
  split; [by destruct (get data "rotation")|]. done.
Qed.

Lemma handle_token_moved_found d sid data st k token :
  identify d (get data "token_id") = Key k →
  tokens st !! k = Some token →
  handle_token_moved d sid data st
  = match moved_token d data token with
    | Takes token' =>
        Some (committed (set_tokens (<[k := token']> (tokens st)) st)
                        [mkEmit "token_moved" data (Some sid)])
    | Refuses => Some (rejected st)
    | Keeps => None
    end.
Proof.
  intros Hid Hk. unfold handle_token_moved.
  by rewrite (proj2 (query_get_Row d (tokens st) _ k token) (conj Hid Hk)).
Qed.

(** C4.  A token_moved event whose token_id identifies no stored Token
    (the store compares it with no key, or with a key that no token has, or
    cannot compare it at all) does nothing: the store is the one before and
    nothing is emitted, to the sender or to anyone else.  No exception
    leaves the handler either, unless the query itself raises on the
    value. *)
Theorem token_moved_unknown_token (d : Dialect) (sid : string)
    (data : gmap string json) (st : Store) :
  (∀ k, identify d (get data "token_id") = Key k → tokens st !! k = None) →
  ∃ out,
    handle_token_moved d sid data st = Some out
    ∧ store out = st
    ∧ emitted out = []
    ∧ (∀ clients, concat (recipients clients <$> emitted out) = [])
    ∧ (raised out = None ↔ identify d (get data "token_id") ≠ BadIdent).
Proof.
  intros Hid. unfold handle_token_moved, query_get.
  destruct (identify d (get data "token_id")) as [k| |] eqn:Hi.
  - rewrite (Hid k eq_refl). eexists. split; [done|]. cbn.
    repeat split; done.
  - eexists. split; [done|]. cbn. repeat split; done.
  - eexists. split; [done|]. cbn. repeat split; done.
Qed.

Lemma token_moved_unknown_token_witness :
  handle_token_moved example_dialect "A" move_unknown dungeon
  = Some (mkOutcome dungeon [] None).
Proof.
  destruct (token_moved_unknown_token example_dialect "A" move_unknown dungeon)
    as (out & Hout & Hstore & Hemit & _ & Hraised).
  - intros k [= <-]. reflexivity.
  - rewrite Hout. destruct out as [st out exn]. cbn in *. subst.
    f_equal. f_equal. by apply Hraised.
Defined.




Lemma bound_ap_Keeps {A B} (f : Bound (A → B)) (a : Bound A) :
  f <*> a = Keeps → f = Keeps ∨ a = Keeps.
Proof. destruct f, a; cbn; try done; by auto. Qed.

(** The handler has a result for a dialect whose Float columns keep no
    value in another form. *)
Lemma handle_token_moved_is_Some d sid data st :
  (∀ v, bind_float d v ≠ Keeps) →
  is_Some (handle_token_moved d sid data st).
Proof.
  intros Hfloat. unfold handle_token_moved.
  destruct (query_get d (tokens st) (get data "token_id"))
    as [k token| |]; [|by eexists|by eexists].
  destruct (moved_token d data token) as [token'| |] eqn:Hm;
    [by eexists | by eexists |].
  exfalso. unfold moved_token in Hm.
  apply bound_ap_Keeps in Hm as [Hm | Hm].
  - apply bound_ap_Keeps in Hm as [Hm | Hm].
    + apply bound_ap_Keeps in Hm as [Hm | Hm].
      * by apply bound_ap_Keeps in Hm as [Hm | Hm];
          [|destruct (get data "x"); [done|..]; by apply (Hfloat _ Hm)].
      * destruct (get data "y"); [done|..]; by apply (Hfloat _ Hm).
    + destruct (get data "scale"); [done|..]; by apply (Hfloat _ Hm).
  - destruct (get data "rotation"); [done|..]; by apply (Hfloat _ Hm).
Qed.

(** C8.  Handling the same token_moved event a second time, right after
    the first, leaves the store as the first left it: every token, the
    moved one included, and every other table.  This holds for every
    payload and store for which the handler has a result; it has one
    unless a Float column keeps a value in a form that is no number, and
    the second time it has one whenever the first has. *)
Theorem token_moved_idempotent (d : Dialect) (sid sid' : string)
    (data : gmap string json) (st : Store) :
  (∀ out, handle_token_moved d sid data st = Some out →
     ∃ out', handle_token_moved d sid' data (store out) = Some out'
             ∧ store out' = store out)
  ∧ ((∀ v, bind_float d v ≠ Keeps) →
     is_Some (handle_token_moved d sid data st)).
Proof.
  split; [|apply handle_token_moved_is_Some].
  intros out. unfold handle_token_moved at 1.
  destruct (query_get d (tokens st) (get data "token_id"))
    as [k token| |] eqn:Hq.
  - apply query_get_Row in Hq as [Hid Hk].
    destruct (moved_token d data token) as [token'| |] eqn:Hm; [| |done].
    + intros [= <-]. cbn.
      rewrite (handle_token_moved_found d sid' data _ k token' Hid
                 (lookup_insert_eq _ _ _)).
      rewrite (moved_token_again d data token token' Hm).
      eexists. split; [done|]. cbn. unfold set_tokens. cbn.
      by rewrite insert_insert_eq.
    + intros [= <-]. cbn.
      rewrite (handle_token_moved_found d sid' data st k token Hid Hk), Hm.
      by eexists.
  - intros [= <-]. cbn. unfold handle_token_moved. rewrite Hq. by eexists.
  - intros [= <-]. cbn. unfold handle_token_moved. rewrite Hq. by eexists.
Qed.

Lemma token_moved_idempotent_witness :
  (∀ v, bind_float example_dialect v ≠ Keeps)
  ∧ store <$> handle_token_moved example_dialect "B" move_5_untyped
                (set_tokens
                   (<[5 := Token.mk 2 "hero.png" 9007199254740992 20 1 0 0
                                    JNull]> (tokens dungeon)) dungeon)
    = Some (set_tokens
              (<[5 := Token.mk 2 "hero.png" 9007199254740992 20 1 0 0 JNull]>
                 (tokens dungeon)) dungeon).
Proof.
  assert (Hfloat : ∀ v, bind_float example_dialect v ≠ Keeps).
  { intros [| |k|q|s| |]; cbn; try done.
    - by destruct (float_of_int k).
    - by destruct (numeral s ≫= float_of_int). }
  split; [exact Hfloat|].
  destruct (token_moved_idempotent example_dialect "A" "B" move_5_untyped
              dungeon) as (Hagain & _).
  destruct (Hagain
              (committed
                 (set_tokens
                    (<[5 := Token.mk 2 "hero.png" 9007199254740992 20 1 0 0
                                     JNull]> (tokens dungeon)) dungeon)
                 [mkEmit "token_moved" move_5_untyped (Some "A"%string)])
              eq_refl)
    as (out' & Hout' & Hstore).
  cbn [store committed] in Hout', Hstore. rewrite Hout'. cbn.
  by rewrite Hstore.
Defined.
(** ** drawing_created and text_created *)

Lemma fk_ok_holds {A} (enforce_fk : bool) (tbl : gmap Z A) (k : Z) :
  (enforce_fk = true → is_Some (tbl !! k)) → fk_ok enforce_fk tbl k = true.
Proof.
  intros H. unfold fk_ok. destruct enforce_fk; [|done].
  cbn. apply bool_decide_eq_true_2. by apply H.
Qed.

Lemma references_Takes {A} (enforce_fk : bool) (tbl : gmap Z A)
    (b : Bound Z) (k : Z) :
  b = Takes k → (enforce_fk = true → is_Some (tbl !! k)) →
  references enforce_fk tbl b = Takes k.
Proof. intros -> Hfk. cbn. by rewrite (fk_ok_holds _ _ _ Hfk). Qed.

Lemma references_dangling {A} (tbl : gmap Z A) (b : Bound Z) (k : Z) :
  b = Takes k → tbl !! k = None → references true tbl b = Refuses.
Proof.
  intros -> Hk. cbn. unfold fk_ok. cbn.
  rewrite bool_decide_eq_false_2; [done|]. rewrite Hk. by intros [? ?].
Qed.

Lemma new_drawing_Takes d enforce_fk data st
    layer_id drawing_type color stroke_width :
  required (bind_integer d) (get data "layer_id") = Takes layer_id →
  (enforce_fk = true → is_Some (layers st !! layer_id)) →
  required (bind_string d 20) (get data "type") = Takes drawing_type →
  required (bind_string d 20) (get data "color") = Takes color →
  with_default 1%Q (bind_float d) (get data "stroke_width")
  = Takes stroke_width →
  new_drawing d enforce_fk data st
  = Takes (Drawing.mk layer_id drawing_type (get data "points")
                      color stroke_width).
Proof.
  intros Hl Hfk Ht Hc Hw. unfold new_drawing.
  by rewrite (references_Takes _ _ _ _ Hl Hfk), Ht, Hc, Hw.
Qed.

Lemma new_text_element_Takes d enforce_fk data st
    layer_id x y text font_size color style :
  required (bind_integer d) (get data "layer_id") = Takes layer_id →
  (enforce_fk = true → is_Some (layers st !! layer_id)) →
  required (bind_float d) (get data "x") = Takes x →
  required (bind_float d) (get data "y") = Takes y →
  required (bind_text d) (get data "text") = Takes text →
  with_default 12 (bind_integer d) (get data "font_size") = Takes font_size →
  with_default "#000000"%string (bind_string d 20) (get data "color")
  = Takes color →
  with_default "normal"%string (bind_string d 20) (get data "style")
  = Takes style →
  new_text_element d enforce_fk data st
  = Takes (TextElement.mk layer_id x y text font_size color style).
Proof.
  intros Hl Hfk Hx Hy Ht Hf Hc Hs. unfold new_text_element.
  by rewrite (references_Takes _ _ _ _ Hl Hfk), Hx, Hy, Ht, Hf, Hc, Hs.
Qed.

Lemma drawing_created_committed d enforce_fk sid data st
    layer_id drawing_type color stroke_width :
  required (bind_integer d) (get data "layer_id") = Takes layer_id →
  (enforce_fk = true → is_Some (layers st !! layer_id)) →
  required (bind_string d 20) (get data "type") = Takes drawing_type →
  required (bind_string d 20) (get data "color") = Takes color →
  with_default 1%Q (bind_float d) (get data "stroke_width")
  = Takes stroke_width →
  handle_drawing_created d enforce_fk sid data st
  = Some (committed
            (set_drawings
               (<[next_id (drawings st) :=
                    Drawing.mk layer_id drawing_type (get data "points")
                               color stroke_width]> (drawings st)) st)
            [mkEmit "drawing_created"
                    (<["id" := JInt (next_id (drawings st))]> data)
                    (Some sid)]).
Proof.
  intros Hl Hfk Ht Hc Hw. unfold handle_drawing_created.
  by rewrite (new_drawing_Takes d enforce_fk data st _ _ _ _ Hl Hfk Ht Hc Hw).
Qed.

Lemma text_created_committed d enforce_fk sid data st
    layer_id x y text font_size color style :
  required (bind_integer d) (get data "layer_id") = Takes layer_id →
  (enforce_fk = true → is_Some (layers st !! layer_id)) →
  required (bind_float d) (get data "x") = Takes x →
  required (bind_float d) (get data "y") = Takes y →
  required (bind_text d) (get data "text") = Takes text →
  with_default 12 (bind_integer d) (get data "font_size") = Takes font_size →
  with_default "#000000"%string (bind_string d 20) (get data "color")
  = Takes color →
  with_default "normal"%string (bind_string d 20) (get data "style")
  = Takes style →
  handle_text_created d enforce_fk sid data st
  = Some (committed
            (set_text_elements
               (<[next_id (text_elements st) :=
                    TextElement.mk layer_id x y text font_size color style]>
                  (text_elements st)) st)
            [mkEmit "text_created"
                    (<["id" := JInt (next_id (text_elements st))]> data)
                    (Some sid)]).
Proof.
  intros Hl Hfk Hx Hy Ht Hf Hc Hs. unfold handle_text_created.
  by rewrite (new_text_element_Takes d enforce_fk data st _ _ _ _ _ _ _
                Hl Hfk Hx Hy Ht Hf Hc Hs).
Qed.

(** A row whose foreign key column is refused is refused, whatever its
    other columns are given. *)
Lemma created_layer_refused d enforce_fk sid data st :
  references enforce_fk (layers st)
             (required (bind_integer d) (get data "layer_id")) = Refuses →
  handle_drawing_created d enforce_fk sid data st = Some (rejected st)
  ∧ handle_text_created d enforce_fk sid data st = Some (rejected st).
Proof.
  intros Hl.
  unfold handle_drawing_created, handle_text_created,
    new_drawing, new_text_element.
  rewrite Hl. rewrite !bound_ap_Refuses_r, ?bound_ap_Refuses_l.
  split; [done|].
  by rewrite ?bound_ap_Refuses_l.
Qed.

Lemma created_without_layer_rejected d enforce_fk sid data st :
  get data "layer_id" = JNull →
  handle_drawing_created d enforce_fk sid data st = Some (rejected st)
  ∧ handle_text_created d enforce_fk sid data st = Some (rejected st).
Proof. intros Hl. apply created_layer_refused. by rewrite Hl. Qed.

Lemma created_dangling_layer_rejected d sid data st layer_id :
  required (bind_integer d) (get data "layer_id") = Takes layer_id →
  layers st !! layer_id = None →
  handle_drawing_created d true sid data st = Some (rejected st)
  ∧ handle_text_created d true sid data st = Some (rejected st).
Proof.
  intros Hl Hnone. apply created_layer_refused.
  by apply (references_dangling _ _ layer_id).
Qed.
(** C10 (as amended).  The drawing_created and text_created handlers do
    not look the layer up themselves; they build the row from the payload
    and commit it.  A payload whose layer_id is absent or null is refused
    by the NOT NULL column: the handler raises, no row is created and
    nothing is emitted; where foreign keys are enforced the same happens
    for a layer_id that names no layer.  A payload whose layer_id and
    other columns are taken by the store (type and color, or x, y and
    text, are required; an absent stroke_width, font_size, color or style
    takes the column default) gives a new row under a fresh id, made of
    the values the columns take, and the payload with that id added is
    emitted to every client but the sender; the layer has to exist only
    where the backend enforces the foreign key. *)
Theorem created_rows_are_checked_at_commit_only
    (d : Dialect) (enforce_fk : bool) (sid : string)
    (data : gmap string json) (st : Store) :
  (get data "layer_id" = JNull →
     handle_drawing_created d enforce_fk sid data st
       = Some (mkOutcome st [] (Some DatabaseError))
     ∧ handle_text_created d enforce_fk sid data st
       = Some (mkOutcome st [] (Some DatabaseError)))
  ∧ (∀ layer_id,
       required (bind_integer d) (get data "layer_id") = Takes layer_id →
       enforce_fk = true → layers st !! layer_id = None →
       handle_drawing_created d enforce_fk sid data st
         = Some (mkOutcome st [] (Some DatabaseError))
       ∧ handle_text_created d enforce_fk sid data st
         = Some (mkOutcome st [] (Some DatabaseError)))
  ∧ (∀ layer_id,
       required (bind_integer d) (get data "layer_id") = Takes layer_id →
       (enforce_fk = true → is_Some (layers st !! layer_id)) →
       (∀ drawing_type color stroke_width,
          required (bind_string d 20) (get data "type") = Takes drawing_type →
          required (bind_string d 20) (get data "color") = Takes color →
          with_default 1%Q (bind_float d) (get data "stroke_width")
          = Takes stroke_width →
          let k := next_id (drawings st) in
          drawings st !! k = None
          ∧ handle_drawing_created d enforce_fk sid data st
            = Some (mkOutcome
                (set_drawings
                   (<[k := Drawing.mk layer_id drawing_type (get data "points")
                                      color stroke_width]> (drawings st)) st)
                [mkEmit "drawing_created" (<["id" := JInt k]> data) (Some sid)]
                None))
       ∧ (∀ x y text font_size color style,
            required (bind_float d) (get data "x") = Takes x →
            required (bind_float d) (get data "y") = Takes y →
            required (bind_text d) (get data "text") = Takes text →
            with_default 12 (bind_integer d) (get data "font_size")
            = Takes font_size →
            with_default "#000000"%string (bind_string d 20) (get data "color")
            = Takes color →
            with_default "normal"%string (bind_string d 20) (get data "style")
            = Takes style →
            let k := next_id (text_elements st) in
            text_elements st !! k = None
            ∧ handle_text_created d enforce_fk sid data st
              = Some (mkOutcome
                  (set_text_elements
                     (<[k := TextElement.mk layer_id x y text font_size
                                            color style]>
                        (text_elements st)) st)
                  [mkEmit "text_created" (<["id" := JInt k]> data) (Some sid)]
                  None)))
  ∧ (∀ clients event data' c,
       c ∈ recipients clients (mkEmit event data' (Some sid))
       ↔ c ∈ clients ∧ c ≠ sid).
Proof.
  split; [|split; [|split]].
  - apply created_without_layer_rejected.
  - intros layer_id Hl -> Hnone.
    by apply (created_dangling_layer_rejected d sid data st layer_id).
  - intros layer_id Hl Hfk. split.
    + intros drawing_type color stroke_width Ht Hc Hw k.
      split; [apply next_id_fresh|].
      by apply drawing_created_committed.
    + intros x y text font_size color style Hx Hy Ht Hf Hc Hs k.
      split; [apply next_id_fresh|].
      by apply text_created_committed.
  - intros clients event data' c. rewrite recipients_skip. cbn.
    split; intros [? ?]; (split; [done|congruence]).
Qed.

Lemma created_rows_are_checked_at_commit_only_witness :
  (* no such layer, foreign keys not enforced: the row is created *)
  handle_drawing_created example_dialect false "A" (line_on 42) dungeon
  = Some (mkOutcome
      (set_drawings
         {[ 1 := Drawing.mk 42 "line" line_points "#ff0000" 2 ]} dungeon)
      [mkEmit "drawing_created" (<["id" := JInt 1]> (line_on 42))
              (Some "A"%string)]
      None)
  (* layer 2 exists: the row is created on any backend *)
  ∧ handle_text_created example_dialect true "A" (note_on 2) dungeon
    = Some (mkOutcome
        (set_text_elements
           {[ 1 := TextElement.mk 2 1 2 "trap" 14 "#000000" "bold" ]} dungeon)
        [mkEmit "text_created" (<["id" := JInt 1]> (note_on 2))
                (Some "A"%string)]
        None)
  ∧ recipients ["A"; "B"; "C"]%string
      (mkEmit "drawing_created" (<["id" := JInt 1]> (line_on 42))
              (Some "A"%string))
    = ["B"; "C"]%string.
Proof.
  destruct (created_rows_are_checked_at_commit_only example_dialect false "A"
              (line_on 42) dungeon) as (_ & _ & Hline & _).
  destruct (created_rows_are_checked_at_commit_only example_dialect true "A"
              (note_on 2) dungeon) as (_ & _ & Hnote & _).
  assert (Hfk : false = true → is_Some (layers dungeon !! 42)) by discriminate.
  assert (Hfk' : true = true → is_Some (layers dungeon !! 2))
    by (intros _; by eexists).
  destruct (Hline 42 eq_refl Hfk) as (Hdrawing & _).
  destruct (Hnote 2 eq_refl Hfk') as (_ & Htext).
  split; [|split].
  - exact (proj2 (Hdrawing "line"%string "#ff0000"%string 2%Q
                    eq_refl eq_refl eq_refl)).
  - exact (proj2 (Htext 1%Q 2%Q "trap"%string 14 "#000000"%string "bold"%string
                    eq_refl eq_refl eq_refl eq_refl eq_refl eq_refl)).
  - reflexivity.
Defined.

(** C10, counterexample.  A drawing_created and a text_created payload
    that carry every field but layer_id: on any backend the commit is
    refused, the store keeps no new row and nothing is emitted.  Where
    foreign keys are enforced the same happens for layer_id 42, which names
    no layer. *)
Lemma created_without_layer_creates_nothing :
  get line_without_layer "layer_id" = JNull
  ∧ get note_without_layer "layer_id" = JNull
  ∧ (∀ d enforce_fk,
       handle_drawing_created d enforce_fk "A" line_without_layer dungeon
         = Some (mkOutcome dungeon [] (Some DatabaseError))
       ∧ handle_text_created d enforce_fk "A" note_without_layer dungeon
         = Some (mkOutcome dungeon [] (Some DatabaseError)))
  ∧ layers dungeon !! 42 = None
  ∧ handle_drawing_created example_dialect true "A" (line_on 42) dungeon
    = Some (mkOutcome dungeon [] (Some DatabaseError))
  ∧ handle_text_created example_dialect true "A" (note_on 42) dungeon
    = Some (mkOutcome dungeon [] (Some DatabaseError)).
Proof.
  split; [reflexivity|]. split; [reflexivity|]. split.
  - intros d enforce_fk. split.
    + by apply (created_without_layer_rejected d enforce_fk "A"
                  line_without_layer dungeon).
    + by apply (created_without_layer_rejected d enforce_fk "A"
                  note_without_layer dungeon).
  - repeat split; reflexivity.
Qed.
(** ** Scene creation *)

Lemma next_id_above {A} (tbl : gmap Z A) (k : Z) :
  next_id tbl ≤ k → tbl !! k = None.
Proof.
  intros Hk. apply eq_None_not_Some. intros Hin.
  apply elem_of_keys, foldr_max_bound in Hin. unfold next_id in Hk. lia.
Qed.

Lemma admin_required_role decode_jwt token req :
  admin_required decode_jwt token = inr req → user_role req = "admin".
Proof.
  unfold admin_required. intros H.
  destruct token as [[|a tok]|]; try done.
  destruct (decode_jwt (String a tok)) as [payload|]; [|done].
  case_bool_decide as Hrole; [done|].
  injection H as <-. destruct (decide (user_role payload = "admin")); done.
Qed.

(** The scene waits for its background layer and every layer waits for the
    scene: whichever objects are already inserted, none of the four is
    free while the scene is pending. *)
Lemma create_scene_no_insert_order :
  insert_order create_scene_refers 4 [0; 1; 2; 3]%nat [] = None.
Proof.
  cbn [insert_order].
  assert (list_find (λ o, create_scene_refers o ⊆ [])
                    [0; 1; 2; 3]%nat = None) as ->; [|done].
  apply list_find_None. repeat constructor; cbn; intros Hsub.
  - by apply (not_elem_of_nil 1%nat), Hsub, list_elem_of_here.
  - by apply (not_elem_of_nil 0%nat), Hsub, list_elem_of_here.
  - by apply (not_elem_of_nil 0%nat), Hsub, list_elem_of_here.
  - by apply (not_elem_of_nil 0%nat), Hsub, list_elem_of_here.
Qed.

(** C6, what the code does.  A scene creation with a non-empty name
    never succeeds, whoever asks: the four new objects cannot be inserted
    in any order, the commit raises, the route answers 500 and the store
    is left as it was, without the scene and without any of the three
    layers. *)
Theorem create_scene_creates_nothing
    (enforce_fk : bool) (req : Request) (name : string) (st : Store) :
  name ≠ "" →
  create_scene enforce_fk req (Some name) st = (Abort 500, st)
  ∧ scenes (create_scene enforce_fk req (Some name) st).2 !! next_id (scenes st)
    = None
  ∧ layers (create_scene enforce_fk req (Some name) st).2 = layers st.
Proof.
  intros Hname.
  assert (create_scene enforce_fk req (Some name) st = (Abort 500, st)) as ->.
  { unfold create_scene.
    assert (falsy (Some name) = false) as -> by (by destruct name).
    by rewrite create_scene_no_insert_order. }
  cbn. split; [done|]. split; [apply next_id_fresh | done].
Qed.

Lemma create_scene_creates_nothing_witness :
  admin_required decode_example (Some "gm-token"%string) = inr gm_request
  ∧ create_scene true gm_request (Some "Crypt"%string) dungeon
    = (Abort 500, dungeon).
Proof.
  assert (Hname : "Crypt"%string ≠ ""%string) by discriminate.
  split; [reflexivity|].
  exact (proj1 (create_scene_creates_nothing true gm_request "Crypt" dungeon
                  Hname)).
Defined.

(** ** Login *)


Lemma authenticate_user_wrong_password
    verify_password generate_jwt st username password uid user :
  find_user st username = Some (uid, user) →
  verify_password password (User.password_hash user) = false →
  authenticate_user verify_password generate_jwt st username password
  = (None, None).
Proof. intros H Hv. unfold authenticate_user. by rewrite H, Hv. Qed.

Lemma authenticate_user_accepts
    verify_password generate_jwt st username password uid user :
  find_user st username = Some (uid, user) →
  verify_password password (User.password_hash user) = true →
  authenticate_user verify_password generate_jwt st username password
  = (Some (uid, user), Some (generate_jwt uid (User.role user))).
Proof. intros H Hv. unfold authenticate_user. by rewrite H, Hv. Qed.

Lemma login_rejected verify_password generate_jwt st username password :
  username ≠ "" → password ≠ "" →
  authenticate_user verify_password generate_jwt st username password
  = (None, None) →
  login verify_password generate_jwt st (Some username) (Some password)
  = Jsonify 401 (message "Invalid credentials").
Proof.
  intros Hu Hp Hfail. unfold login. rewrite Hfail.
  by destruct username, password.
Qed.


(** ** The scenario of the specification *)

(** A gm asks for a new scene, which fails, and activates scene 2; client
    A then moves token 5, naming it by a string and giving for x an
    integer that no double holds.  Nothing was created; scene 2 alone is
    active; the move is stored with the nearest double for x, handling it
    again changes nothing more, and of the clients A and B only B receives
    the event. *)
Example dungeon_scenario :
  let created := create_scene true gm_request (Some "Crypt"%string) dungeon in
  let activated := (activate_scene 2 created.2).1.2 in
  let moved := handle_token_moved example_dialect "A" move_5_untyped activated in
  created = (Abort 500, dungeon)
  ∧ (Scene.active <$> scenes activated
     = ({[ 1 := false; 2 := true ]} : gmap Z bool))
  ∧ (store <$> moved) ≫= (λ st, tokens st !! 5)
    = Some (Token.mk 2 "hero.png" 9007199254740992 20 1 0 0 JNull)
  ∧ (moved ≫= λ out, store <$> handle_token_moved example_dialect "A"
                                 move_5_untyped (store out))
    = store <$> moved
  ∧ (emitted <$> moved)
    = Some [mkEmit "token_moved" move_5_untyped (Some "A"%string)]
  ∧ recipients ["A"; "B"]%string
      (mkEmit "token_moved" move_5_untyped (Some "A"%string))
    = ["B"%string].
Proof. cbv zeta. repeat split; vm_compute; reflexivity. Qed.

(** What the example dialect makes of values that are not of the column's
    type.  A layer named by the string '1' is layer 1 and the drawing is
    created; a font size of 2^63 and an x of 10^400 are refused, and the
    handler raises without storing or emitting anything; a layer_id that
    spells no number would be stored as a text, and the handler has no
    result in this model. *)
Example realtime_conversions :
  handle_drawing_created example_dialect true "A"
    (<["layer_id" := JStr "1"]> line_without_layer) dungeon
  = Some (mkOutcome
            (set_drawings
               {[ 1 := Drawing.mk 1 "line" line_points "#ff0000" 2 ]} dungeon)
            [mkEmit "drawing_created"
                    (<["id" := JInt 1]>
                       (<["layer_id" := JStr "1"]> line_without_layer))
                    (Some "A"%string)]
            None)
  ∧ handle_text_created example_dialect true "A"
      (<["font_size" := JInt (2 ^ 63)]> (note_on 2)) dungeon
    = Some (mkOutcome dungeon [] (Some DatabaseError))
  ∧ handle_token_moved example_dialect "A"
      (<["x" := JInt (10 ^ 400)]> move_5) dungeon
    = Some (mkOutcome dungeon [] (Some DatabaseError))
  ∧ handle_drawing_created example_dialect false "A"
      (<["layer_id" := JStr "abc"]> line_without_layer) dungeon
    = None.
Proof. repeat split; vm_compute; reflexivity. Qed.

(** * Further properties *)

(** ** The Authorization header *)

Lemma split_nonempty sep s : split sep s ≠ [].
Proof.
  destruct s as [|a s]; cbn; [done|].
  destruct (Ascii.eqb a sep); [done|]. by destruct (split sep s).
Qed.

Lemma split_no_sep sep s : has_char sep s = false → split sep s = [s].
Proof.
  induction s as [|a s IH]; cbn; [done|].
  destruct (Ascii.eqb a sep); [done|]. cbn. intros H. by rewrite IH.
Qed.

Lemma split_app_sep sep a b :
  has_char sep a = false →
  split sep (a +:+ String sep b) = a :: split sep b.
Proof.
  induction a as [|c a IH].
  - intros _. change ("" +:+ String sep b) with (String sep b).
    cbn. by rewrite Ascii.eqb_refl.
  - change (String c a +:+ String sep b) with (String c (a +:+ String sep b)).
    cbn. destruct (Ascii.eqb c sep); [done|]. cbn. intros H. by rewrite IH.
Qed.

Lemma split_pieces sep s piece :
  piece ∈ split sep s → has_char sep piece = false.
Proof.
  revert piece. induction s as [|a s IH]; cbn; intros piece Hin.
  - apply list_elem_of_singleton in Hin as ->. done.
  - destruct (Ascii.eqb a sep) eqn:Ha.
    + apply elem_of_cons in Hin as [-> | Hin]; [done | by apply IH].
    + destruct (split sep s) as [|p ps] eqn:Hs.
      * apply list_elem_of_singleton in Hin as ->. cbn. by rewrite Ha.
      * apply elem_of_cons in Hin as [-> | Hin].
        -- cbn. rewrite Ha. cbn. apply IH. apply list_elem_of_here.
        -- apply IH. by apply list_elem_of_further.
Qed.

Lemma prefix_append p s :
  String.prefix p s = true ↔ ∃ rest, s = p +:+ rest.
Proof.
  revert s. induction p as [|a p IH]; intros s.
  - split; [intros _; exists s; reflexivity | intros _; by destruct s].
  - destruct s as [|b s]; cbn.
    + split; [done|]. by intros [rest ?].
    + destruct (Ascii.ascii_dec a b) as [-> | Hne].
      * rewrite IH. split; intros [rest Hrest]; exists rest.
        -- by rewrite Hrest.
        -- change (String b p +:+ rest) with (String b (p +:+ rest)) in Hrest.
           by injection Hrest.
      * split; [done|]. intros [rest Hrest].
        change (String a p +:+ rest) with (String a (p +:+ rest)) in Hrest.
        injection Hrest as ? ?. done.
Qed.

Lemma get_token_Bearer (token : string) :
  has_char Ascii.Space token = false →
  get_token_from_request (Some ("Bearer " +:+ token)) = Some token.
Proof.
  intros Htok. unfold get_token_from_request.
  change ("Bearer " +:+ token)
    with ("Bearer" +:+ String Ascii.Space token).
  assert (String.prefix "Bearer " ("Bearer" +:+ String Ascii.Space token) = true)
    as -> by (apply prefix_append; by exists token).
  rewrite split_app_sep by done. by rewrite split_no_sep.
Qed.

(** X1.  A header "Bearer " followed by a token without spaces gives back
    the token; when more text follows after a space, the token is the part
    up to that space. *)
Theorem get_token_from_request_bearer (token more : string) :
  has_char Ascii.Space token = false →
  get_token_from_request (Some ("Bearer " +:+ token)) = Some token
  ∧ get_token_from_request
      (Some ("Bearer " +:+ token +:+ String Ascii.Space more))
    = Some token.
Proof.
  intros Htok. split; [by apply get_token_Bearer|].
  unfold get_token_from_request.
  change ("Bearer " +:+ token +:+ String Ascii.Space more)
    with ("Bearer" +:+ String Ascii.Space (token +:+ String Ascii.Space more)).
  assert (String.prefix "Bearer "
            ("Bearer" +:+ String Ascii.Space (token +:+ String Ascii.Space more))
          = true) as ->
    by (apply prefix_append; by exists (token +:+ String Ascii.Space more)).
  rewrite split_app_sep by done. by rewrite split_app_sep.
Qed.

Lemma get_token_from_request_bearer_witness :
  get_token_from_request (Some "Bearer gm-token") = Some "gm-token"
  ∧ get_token_from_request (Some "Bearer gm-token and more") = Some "gm-token".
Proof.
  apply (get_token_from_request_bearer "gm-token" "and more"). reflexivity.
Defined.

(** X2.  A token is found exactly when the header is present and starts
    with "Bearer "; the token found has no space in it, and it is empty
    when the prefix is followed by nothing or by another space. *)
Theorem get_token_from_request_found (auth_header : option string) :
  (is_Some (get_token_from_request auth_header)
   ↔ ∃ rest, auth_header = Some ("Bearer " +:+ rest))
  ∧ (∀ token, get_token_from_request auth_header = Some token →
       has_char Ascii.Space token = false)
  ∧ (∀ rest, get_token_from_request
               (Some ("Bearer " +:+ String Ascii.Space rest)) = Some ""
             ∧ get_token_from_request (Some "Bearer ") = Some "").
Proof.
  split; [|split].
  - destruct auth_header as [header|]; cbn.
    + destruct (String.prefix "Bearer " header) eqn:Hp.
      * apply prefix_append in Hp as [rest ->].
        rewrite andb_true_r. cbn. split; [by exists rest|]. intros _.
        change ("Bearer " +:+ rest) with ("Bearer" +:+ String Ascii.Space rest).
        rewrite split_app_sep by done. cbn.
        pose proof (split_nonempty Ascii.Space rest).
        destruct (split Ascii.Space rest); [done | by eexists].
      * rewrite andb_false_r. split; [by intros [? ?]|].
        intros [rest [= ->]].
        assert (String.prefix "Bearer " ("Bearer " +:+ rest) = true)
          by (apply prefix_append; by exists rest).
        congruence.
    + split; [by intros [? ?] | by intros [? ?]].
  - intros token. destruct auth_header as [header|]; cbn; [|done].
    destruct (negb _ && _); [|done]. intros Hl.
    apply (split_pieces Ascii.Space header). by eapply list_elem_of_lookup_2.
  - intros rest. split; reflexivity.
Qed.

(** ** Users *)

Lemma head_filter_Some {A} (P : A → Prop) `{∀ x, Decision (P x)} l x :
  head (filter P l) = Some x → x ∈ l ∧ P x.
Proof.
  intros Hh. assert (x ∈ filter P l) as Hin.
  { destruct (filter P l) as [|y ys]; [done|].
    injection Hh as ->. apply list_elem_of_here. }
  apply list_elem_of_filter in Hin. tauto.
Qed.

Lemma head_filter_None {A} (P : A → Prop) `{∀ x, Decision (P x)} l :
  head (filter P l) = None ↔ ∀ x, x ∈ l → ¬ P x.
Proof.
  split.
  - intros Hh x Hin HP.
    assert (x ∈ filter P l) as Hf by (by apply list_elem_of_filter).
    destruct (filter P l); [by apply elem_of_nil in Hf | done].
  - intros Hno. destruct (filter P l) as [|y ys] eqn:Hf; [done|].
    assert (y ∈ filter P l) as Hy by (rewrite Hf; apply list_elem_of_here).
    apply list_elem_of_filter in Hy as [HP Hin]. by destruct (Hno y Hin).
Qed.

Lemma head_filter_only {A} (P : A → Prop) `{∀ x, Decision (P x)} l x :
  x ∈ l → P x → (∀ y, y ∈ l → P y → y = x) → head (filter P l) = Some x.
Proof.
  intros Hin HP Honly.
  destruct (head (filter P l)) as [y|] eqn:Hh.
  - apply head_filter_Some in Hh as [Hy HPy]. by rewrite (Honly y Hy HPy).
  - rewrite head_filter_None in Hh. by destruct (Hh x Hin).
Qed.

Lemma find_user_Some st username uid user :
  find_user st username = Some (uid, user) →
  users st !! uid = Some user ∧ User.username user = username.
Proof.
  intros Hf. apply head_filter_Some in Hf as [Hin Hname].
  by apply elem_of_all in Hin.
Qed.

Lemma find_user_None st username :
  find_user st username = None
  ↔ ∀ uid user, users st !! uid = Some user → User.username user ≠ username.
Proof.
  unfold find_user. rewrite head_filter_None. split.
  - intros Hno uid user Hu. apply (Hno (uid, user)). by apply elem_of_all.
  - intros Hno [uid user] Hin. apply (Hno uid user). by apply elem_of_all.
Qed.

Lemma find_user_unique st uid user :
  unique_usernames st → users st !! uid = Some user →
  find_user st (User.username user) = Some (uid, user).
Proof.
  intros Huniq Hu. apply head_filter_only; [by apply elem_of_all | done |].
  intros [j uj] Hin Hname. apply elem_of_all in Hin. cbn in Hname.
  assert (j = uid) as -> by (by eapply Huniq). congruence.
Qed.

Lemma register_user_new hash_password enforce_fk salt st
    username password role registered_by :
  find_user st username = None →
  (∀ by_id, registered_by = Some by_id → enforce_fk = true →
            is_Some (users st !! by_id)) →
  register_user hash_password enforce_fk salt st
                username password role registered_by
  = Returns (next_id (users st),
             User.mk username (hash_password salt password) role registered_by,
             set_users (<[next_id (users st) :=
                            User.mk username (hash_password salt password)
                                    role registered_by]> (users st)) st).
Proof.
  intros Hnew Hfk. unfold register_user. rewrite Hnew.
  assert (from_option (fk_ok enforce_fk (users st)) true registered_by = true)
    as ->; [|done].
  destruct registered_by as [by_id|]; [|done]. cbn.
  apply fk_ok_holds. by apply Hfk.
Qed.

Lemma register_user_Returns hash_password enforce_fk salt st
    username password role registered_by uid user st' :
  register_user hash_password enforce_fk salt st
                username password role registered_by
  = Returns (uid, user, st') →
  find_user st username = None
  ∧ uid = next_id (users st)
  ∧ user = User.mk username (hash_password salt password) role registered_by
  ∧ st' = set_users (<[uid := user]> (users st)) st.
Proof.
  unfold register_user.
  destruct (find_user st username) as [existing|]; [done|].
  destruct (from_option _ _ _); [|done]. cbn. by intros [= <- <- <-].
Qed.

Lemma find_user_inserted st uid user :
  users st !! uid = None →
  find_user st (User.username user) = None →
  find_user (set_users (<[uid := user]> (users st)) st) (User.username user)
  = Some (uid, user).
Proof.
  intros Hfresh Hnew. apply head_filter_only.
  - apply elem_of_all. cbn. apply lookup_insert_eq.
  - done.
  - intros [j uj] Hin Hname. apply elem_of_all in Hin. cbn in Hin, Hname.
    destruct (decide (j = uid)) as [-> | Hne].
    + rewrite lookup_insert_eq in Hin. congruence.
    + rewrite lookup_insert_ne in Hin by done.
      rewrite find_user_None in Hnew. by destruct (Hnew j uj Hin).
Qed.

Lemma unique_usernames_insert st uid user :
  unique_usernames st →
  find_user st (User.username user) = None →
  unique_usernames (set_users (<[uid := user]> (users st)) st).
Proof.
  intros Huniq Hnew i j ui uj Hi Hj Hname. cbn in Hi, Hj.
  rewrite find_user_None in Hnew.
  destruct (decide (i = uid)) as [-> | Hi'], (decide (j = uid)) as [-> | Hj'];
    [done| | |].
  - rewrite lookup_insert_eq in Hi. rewrite lookup_insert_ne in Hj by done.
    injection Hi as <-. destruct (Hnew j uj Hj). done.
  - rewrite lookup_insert_eq in Hj. rewrite lookup_insert_ne in Hi by done.
    injection Hj as <-. destruct (Hnew i ui Hi). done.
  - rewrite lookup_insert_ne in Hi, Hj by done. by eapply Huniq.
Qed.

(** X3.  Registering a username that no user has stores the user under a
    fresh id, with the hash of the password, the role and the registrar
    given, and leaves every other row of the store alone; the user is then
    the one found under that username.  (Where foreign keys are enforced
    the registrar has to be a stored user.) *)
Theorem register_user_stores_user
    (hash_password : string → string → string) (enforce_fk : bool)
    (salt : string) (st : Store) (username password role : string)
    (registered_by : option Z) :
  find_user st username = None →
  (∀ by_id, registered_by = Some by_id → enforce_fk = true →
            is_Some (users st !! by_id)) →
  ∃ uid st',
    let user :=
      User.mk username (hash_password salt password) role registered_by in
    register_user hash_password enforce_fk salt st
                  username password role registered_by
    = Returns (uid, user, st')
    ∧ users st !! uid = None
    ∧ users st' !! uid = Some user
    ∧ (∀ j, j ≠ uid → users st' !! j = users st !! j)
    ∧ find_user st' username = Some (uid, user)
    ∧ scenes st' = scenes st ∧ layers st' = layers st
    ∧ tokens st' = tokens st ∧ drawings st' = drawings st
    ∧ text_elements st' = text_elements st.
Proof.
  intros Hnew Hfk. eexists _, _. cbn zeta. split.
  { by apply register_user_new. }
  split; [apply next_id_fresh|]. cbn.
  split; [apply lookup_insert_eq|].
  split; [intros j Hj; by apply lookup_insert_ne|].
  split; [|done].
  apply (find_user_inserted st _ (User.mk username _ role registered_by));
    [apply next_id_fresh | done].
Qed.

Lemma register_user_stores_user_witness :
  ∃ st', register_user hash_example true "salt" dungeon
           "alice" "secret" "player" (Some 7)
         = Returns (9, User.mk "alice" "hash-of-secret" "player" (Some 7), st')
         ∧ find_user st' "alice"
           = Some (9, User.mk "alice" "hash-of-secret" "player" (Some 7)).
Proof.
  destruct (register_user_stores_user hash_example true "salt" dungeon
              "alice" "secret" "player" (Some 7) eq_refl)
    as (uid & st' & Hreg & _ & _ & _ & Hfind & _).
  { intros by_id [= <-] _. by eexists. }
  exists st'. cbn zeta in Hreg.
  assert (uid = 9) as ->.
  { apply register_user_Returns in Hreg as (_ & -> & _). reflexivity. }
  split; [exact Hreg | exact Hfind].
Defined.

(** X4.  Once a username was registered, registering it again raises
    ValueError with the message that names it, whatever the password, role,
    registrar or backend of the second call. *)
Theorem register_user_twice
    (hash_password hash_password' : string → string → string)
    (enforce_fk enforce_fk' : bool) (salt salt' : string) (st st' : Store)
    (username password role password' role' : string)
    (registered_by registered_by' : option Z) (uid : Z) (user : User.t) :
  register_user hash_password enforce_fk salt st
                username password role registered_by
  = Returns (uid, user, st') →
  register_user hash_password' enforce_fk' salt' st'
                username password' role' registered_by'
  = ValueError ("Username '" +:+ username +:+ "' already exists").
Proof.
  intros Hreg.
  apply register_user_Returns in Hreg as (Hnew & -> & -> & ->).
  unfold register_user at 1.
  rewrite (find_user_inserted st _
             (User.mk username (hash_password salt password) role registered_by));
    [done | apply next_id_fresh | done].
Qed.

Lemma register_user_twice_witness :
  ∃ st', register_user hash_example true "salt" dungeon
           "alice" "secret" "player" (Some 7)
         = Returns (9, User.mk "alice" "hash-of-secret" "player" (Some 7), st')
         ∧ register_user hash_example false "other" st'
             "alice" "hunter2" "admin" None
           = ValueError "Username 'alice' already exists".
Proof.
  eexists. split; [reflexivity|].
  apply (register_user_twice hash_example hash_example true false
           "salt" "other" dungeon _ "alice" "secret" "player"
           "hunter2" "admin" (Some 7) None 9
           (User.mk "alice" "hash-of-secret" "player" (Some 7))).
  reflexivity.
Defined.

Lemma find_user_other st uid user other :
  unique_usernames st →
  users st !! uid = None →
  find_user st (User.username user) = None →
  other ≠ User.username user →
  find_user (set_users (<[uid := user]> (users st)) st) other
  = find_user st other.
Proof.
  intros Huniq Hfresh Hnew Hother.
  set (st' := set_users _ st).
  assert (unique_usernames st') as Huniq'
    by (by apply unique_usernames_insert).
  destruct (find_user st other) as [[j uj]|] eqn:Ho.
  - pose proof (find_user_Some _ _ _ _ Ho) as [Hj <-].
    apply (find_user_unique st' j uj Huniq'). cbn.
    rewrite lookup_insert_ne; [done|]. intros <-. congruence.
  - apply find_user_None. intros j uj Hj. cbn in Hj.
    destruct (decide (j = uid)) as [-> | Hne].
    + rewrite lookup_insert_eq in Hj. injection Hj as <-. done.
    + rewrite lookup_insert_ne in Hj by done.
      rewrite find_user_None in Ho. by apply (Ho j uj).
Qed.

Lemma register_user_ValueError hash_password enforce_fk salt st
    username password role registered_by msg :
  register_user hash_password enforce_fk salt st
                username password role registered_by = ValueError msg →
  is_Some (find_user st username)
  ∧ msg = "Username '" +:+ username +:+ "' already exists".
Proof.
  unfold register_user.
  destruct (find_user st username) as [existing|].
  - intros [= <-]. by eauto.
  - by destruct (from_option _ _ _).
Qed.

Lemma register_user_CommitRefused hash_password enforce_fk salt st
    username password role registered_by :
  register_user hash_password enforce_fk salt st
                username password role registered_by = CommitRefused →
  enforce_fk = true
  ∧ ∃ by_id, registered_by = Some by_id ∧ users st !! by_id = None.
Proof.
  unfold register_user.
  destruct (find_user st username) as [existing|]; [done|].
  destruct registered_by as [by_id|]; cbn; [|done].
  unfold fk_ok. destruct enforce_fk; cbn; [|done].
  case_bool_decide as Hby; [done|]. intros _. split; [done|].
  exists by_id. split; [done|]. by apply eq_None_not_Some.
Qed.

(** X5.  register_user keeps usernames unique and does not disturb the
    lookup of other names: if it returns, the new store still has no two
    users of one name and every other username finds what it found before;
    it raises ValueError only when the name is taken, and the commit is
    refused only when foreign keys are enforced and the registrar is not a
    stored user. *)
Theorem register_user_keeps_usernames_unique
    (hash_password : string → string → string) (enforce_fk : bool)
    (salt : string) (st : Store) (username password role : string)
    (registered_by : option Z) :
  unique_usernames st →
  match register_user hash_password enforce_fk salt st
                      username password role registered_by with
  | Returns (uid, user, st') =>
      unique_usernames st'
      ∧ ∀ other, other ≠ username → find_user st' other = find_user st other
  | ValueError msg =>
      is_Some (find_user st username)
      ∧ msg = "Username '" +:+ username +:+ "' already exists"
  | CommitRefused =>
      enforce_fk = true
      ∧ ∃ by_id, registered_by = Some by_id ∧ users st !! by_id = None
  end.
Proof.
  intros Huniq.
  destruct (register_user hash_password enforce_fk salt st
              username password role registered_by)
    as [[[uid user] st']|msg|] eqn:Hreg.
  - apply register_user_Returns in Hreg as (Hnew & -> & -> & ->). split.
    + by apply (unique_usernames_insert st _ (User.mk username _ role _)).
    + intros other Hother.
      by apply (find_user_other st _ (User.mk username _ role _));
        [|apply next_id_fresh| |].
  - by apply register_user_ValueError in Hreg.
  - by apply register_user_CommitRefused in Hreg.
Qed.

Lemma register_user_keeps_usernames_unique_witness :
  unique_usernames dungeon
  ∧ find_user
      (set_users (<[9 := User.mk "alice" "hash-of-secret" "player" (Some 7)]>
                    (users dungeon)) dungeon) "bob"
    = find_user dungeon "bob".
Proof.
  assert (Huniq : unique_usernames dungeon).
  { intros i j ui uj Hi Hj Hname.
    destruct (decide (i = 7)) as [-> | Hi7];
      [|destruct (decide (i = 8)) as [-> | Hi8]];
      (destruct (decide (j = 7)) as [-> | Hj7];
        [|destruct (decide (j = 8)) as [-> | Hj8]]); try done.
    - vm_compute in Hi, Hj. by simplify_eq.
    - unfold dungeon in Hj. cbn in Hj.
      by rewrite !lookup_insert_ne, lookup_empty in Hj.
    - vm_compute in Hi, Hj. by simplify_eq.
    - unfold dungeon in Hj. cbn in Hj.
      by rewrite !lookup_insert_ne, lookup_empty in Hj.
    - unfold dungeon in Hi. cbn in Hi.
      by rewrite !lookup_insert_ne, lookup_empty in Hi.
    - unfold dungeon in Hi. cbn in Hi.
      by rewrite !lookup_insert_ne, lookup_empty in Hi.
    - unfold dungeon in Hi. cbn in Hi.
      by rewrite !lookup_insert_ne, lookup_empty in Hi. }
  split; [exact Huniq|].
  pose proof (register_user_keeps_usernames_unique hash_example true "salt"
                dungeon "alice" "secret" "player" (Some 7) Huniq) as H.
  change (register_user hash_example true "salt" dungeon
            "alice" "secret" "player" (Some 7))
    with (Returns (A := Z * User.t * Store)
            (9, User.mk "alice" "hash-of-secret" "player" (Some 7),
             set_users (<[9 := User.mk "alice" "hash-of-secret" "player" (Some 7)]>
                          (users dungeon)) dungeon)) in H.
  destruct H as [_ H]. apply H. discriminate.
Defined.

(** ** Registration, login and the decorators together *)

Lemma login_accepted verify_password generate_jwt st username password uid user :
  username ≠ "" → password ≠ "" →
  find_user st username = Some (uid, user) →
  verify_password password (User.password_hash user) = true →
  login verify_password generate_jwt st (Some username) (Some password)
  = Jsonify 200 (JObj {[
      "token" := JStr (generate_jwt uid (User.role user));
      "user" := JObj {[ "id" := JInt uid;
                        "username" := JStr (User.username user);
                        "role" := JStr (User.role user) ]} ]}).
Proof.
  intros Hu Hp Hf Hv. unfold login.
  rewrite (authenticate_user_accepts _ _ _ _ _ uid user Hf Hv).
  by destruct username, password.
Qed.

Lemma login_after_register (hash_password : string → string → string)
    verify_password generate_jwt
    (salt : string) st username password role registered_by :
  find_user st username = None →
  verify_password password (hash_password salt password) = true →
  username ≠ "" → password ≠ "" →
  login verify_password generate_jwt
    (set_users (<[next_id (users st) :=
                    User.mk username (hash_password salt password)
                            role registered_by]> (users st)) st)
    (Some username) (Some password)
  = Jsonify 200 (JObj {[
      "token" := JStr (generate_jwt (next_id (users st)) role);
      "user" := JObj {[ "id" := JInt (next_id (users st));
                        "username" := JStr username;
                        "role" := JStr role ]} ]}).
Proof.
  intros Hnew Hv Hu Hp.
  set (user := User.mk username (hash_password salt password) role registered_by).
  assert (find_user (set_users (<[next_id (users st) := user]> (users st)) st)
            username = Some (next_id (users st), user)) as Hf
    by (apply (find_user_inserted st _ user); [apply next_id_fresh | done]).
  by rewrite (login_accepted _ _ _ _ _ _ user Hu Hp Hf).
Qed.

(** X6.  A user who was registered can log in with the password given at
    registration, provided the library verifies a password against its own
    hash: the response is 200 and carries the token generated for the
    user's id and role and the user's id, name and role.  A password that
    the hash does not verify gets 401. *)
Theorem registered_user_can_log_in
    (hash_password : string → string → string)
    (verify_password : string → string → bool)
    (generate_jwt : Z → string → string) (enforce_fk : bool)
    (salt : string) (st st' : Store) (username password role : string)
    (registered_by : option Z) (uid : Z) (user : User.t) :
  register_user hash_password enforce_fk salt st
                username password role registered_by
  = Returns (uid, user, st') →
  verify_password password (hash_password salt password) = true →
  username ≠ "" → password ≠ "" →
  login verify_password generate_jwt st' (Some username) (Some password)
  = Jsonify 200 (JObj {[
      "token" := JStr (generate_jwt uid role);
      "user" := JObj {[ "id" := JInt uid; "username" := JStr username;
                        "role" := JStr role ]} ]})
  ∧ ∀ guess, guess ≠ "" →
      verify_password guess (hash_password salt password) = false →
      login verify_password generate_jwt st' (Some username) (Some guess)
      = Jsonify 401 (message "Invalid credentials").
Proof.
  intros Hreg Hv Hu Hp.
  apply register_user_Returns in Hreg as (Hnew & -> & -> & ->).
  set (user := User.mk username (hash_password salt password) role registered_by).
  assert (find_user (set_users (<[next_id (users st) := user]> (users st)) st)
            username = Some (next_id (users st), user)) as Hf
    by (apply (find_user_inserted st _ user); [apply next_id_fresh | done]).
  split.
  - by apply login_after_register.
  - intros guess Hg Hwrong. apply login_rejected; [done..|].
    by apply (authenticate_user_wrong_password _ _ _ _ _
                (next_id (users st)) user).
Qed.

Lemma registered_user_can_log_in_witness :
  ∃ st', register_user hash_example true "salt" dungeon
           "alice" "secret" "player" (Some 7)
         = Returns (9, User.mk "alice" "hash-of-secret" "player" (Some 7), st')
         ∧ status_code (login verify_example jwt_example st'
                          (Some "alice") (Some "secret")) = 200
         ∧ status_code (login verify_example jwt_example st'
                          (Some "alice") (Some "hunter2")) = 401.
Proof.
  eexists. split; [reflexivity|].
  assert (Hu : "alice"%string ≠ ""%string) by discriminate.
  assert (Hp : "secret"%string ≠ ""%string) by discriminate.
  assert (Hg : "hunter2"%string ≠ ""%string) by discriminate.
  destruct (registered_user_can_log_in hash_example verify_example jwt_example
              true "salt" dungeon _ "alice" "secret" "player" (Some 7) 9 _
              eq_refl eq_refl Hu Hp) as [Hok Hbad].
  split; [by rewrite Hok|]. by rewrite (Hbad "hunter2" Hg eq_refl).
Defined.

(** X7.  The token a successful login returns, sent back as
    'Authorization: Bearer <token>', gives the request the id and role of
    the user who logged in, provided the library decodes what it signed and
    the token is not empty and has no space; admin_required lets the
    request through exactly when that role is 'admin', and answers 403
    otherwise. *)
Theorem issued_token_is_accepted
    (verify_password : string → string → bool)
    (generate_jwt : Z → string → string)
    (decode_jwt : string → option Request)
    (st : Store) (username password token : string) (uid : Z) (user : User.t) :
  authenticate_user verify_password generate_jwt st username password
  = (Some (uid, user), Some token) →
  decode_jwt token = Some (mkRequest uid (User.role user)) →
  token ≠ "" → has_char Ascii.Space token = false →
  let tok := get_token_from_request (Some ("Bearer " +:+ token)) in
  token = generate_jwt uid (User.role user)
  ∧ users st !! uid = Some user
  ∧ login_required decode_jwt tok = inr (mkRequest uid (User.role user))
  ∧ (User.role user = "admin" →
       admin_required decode_jwt tok = inr (mkRequest uid (User.role user)))
  ∧ (User.role user ≠ "admin" →
       admin_required decode_jwt tok
       = inl (Jsonify 403 (message "Admin privileges required"))).
Proof.
  intros Hauth Hdec Hne Hsp tok. subst tok.
  rewrite (get_token_Bearer token Hsp).
  unfold authenticate_user in Hauth.
  destruct (find_user st username) as [[uid' user']|] eqn:Hf; [|done].
  destruct (verify_password password (User.password_hash user')); [|done].
  injection Hauth as -> -> <-.
  apply find_user_Some in Hf as [Hu _].
  split; [done|]. split; [done|].
  unfold login_required, admin_required.
  destruct (generate_jwt uid (User.role user)) as [|a t] eqn:Ht; [done|].
  rewrite Hdec. cbn. split; [done|]. split; intros Hrole.
  - by rewrite bool_decide_eq_false_2 by (intros H; by apply H).
  - by rewrite bool_decide_eq_true_2.
Qed.

Lemma issued_token_is_accepted_witness :
  login_required decode_round
    (get_token_from_request (Some ("Bearer " +:+ jwt_example 9 "player")))
  = inr (mkRequest 9 "player")
  ∧ admin_required decode_round
      (get_token_from_request (Some ("Bearer " +:+ jwt_example 9 "player")))
    = inl (Jsonify 403 (message "Admin privileges required")).
Proof.
  assert (Hne : jwt_example 9 "player" ≠ ""%string) by discriminate.
  destruct (issued_token_is_accepted verify_example jwt_example decode_round
              dungeon_with_alice "alice" "secret" (jwt_example 9 "player") 9
              (User.mk "alice" "hash-of-secret" "player" (Some 7))
              eq_refl eq_refl Hne eq_refl) as (_ & _ & Hlogin & _ & Hadmin).
  split; [exact Hlogin|]. apply Hadmin. discriminate.
Defined.

(** ** POST /api/auth/register and the gm-only routes *)

(** X8.  The register route checks in this order: a missing or empty
    username or password is answered 400; then a role other than 'admin'
    and 'player' is answered 400, also when the username is taken; then a
    taken username is answered 400 with the message that names it.  In all
    three cases the store is unchanged.  Otherwise the answer is 201 and
    the new user is stored with the role asked for ('player' when the body
    has no role) and the caller as registrar. *)
Theorem register_validates_in_order
    (hash_password : string → string → string) (enforce_fk : bool)
    (salt : string) (req : Request) (username password : string)
    (role : option string) (st : Store) :
  username ≠ "" → password ≠ "" →
  let asked := default "player" role in
  let run := register hash_password enforce_fk salt req in
  (∀ u p, falsy u || falsy p = true →
     run u p role st
     = (Jsonify 400 (message "Username and password are required"), st))
  ∧ (asked ≠ "admin" → asked ≠ "player" →
       run (Some username) (Some password) role st
       = (Jsonify 400 (message ("Role must be either " +:+ dquote +:+ "admin"
                                +:+ dquote +:+ " or " +:+ dquote +:+ "player"
                                +:+ dquote)), st))
  ∧ (asked = "admin" ∨ asked = "player" →
       is_Some (find_user st username) →
       run (Some username) (Some password) role st
       = (Jsonify 400 (message ("Username '" +:+ username
                                +:+ "' already exists")), st))
  ∧ (asked = "admin" ∨ asked = "player" →
       find_user st username = None →
       (enforce_fk = true → is_Some (users st !! user_id req)) →
       let uid := next_id (users st) in
       let user := User.mk username (hash_password salt password) asked
                           (Some (user_id req)) in
       run (Some username) (Some password) role st
       = (Jsonify 201 (JObj {[
            "message" := JStr "User registered successfully";
            "user" := JObj {[ "id" := JInt uid; "username" := JStr username;
                              "role" := JStr asked ]} ]}),
          set_users (<[uid := user]> (users st)) st)).
Proof.
  intros Hu Hp asked run. subst run.
  assert (falsy (Some username) || falsy (Some password) = false) as Hfalsy
    by (by destruct username, password).
  split; [|split; [|split]].
  - intros u p Hf. unfold register. by rewrite Hf.
  - intros Ha Hpl. unfold register. rewrite Hfalsy. fold asked.
    rewrite bool_decide_eq_false_2; cbn.
    + reflexivity.
    + intros Hin. apply elem_of_cons in Hin as [? | Hin]; [done|].
      apply list_elem_of_singleton in Hin. done.
  - intros Hrole [[uid user] Hf]. unfold register. rewrite Hfalsy. fold asked.
    rewrite bool_decide_eq_true_2; cbn.
    + unfold register_user. by rewrite Hf.
    + destruct Hrole as [-> | ->];
        [apply list_elem_of_here | apply list_elem_of_further, list_elem_of_here].
  - intros Hrole Hnew Hfk uid user. unfold register. rewrite Hfalsy. fold asked.
    rewrite bool_decide_eq_true_2; cbn.
    + rewrite register_user_new; [done | done |].
      intros by_id [= <-]. done.
    + destruct Hrole as [-> | ->];
        [apply list_elem_of_here | apply list_elem_of_further, list_elem_of_here].
Qed.

Lemma register_validates_in_order_witness :
  (* bob is taken, but the role is looked at first *)
  register hash_example true "salt" gm_request
    (Some "bob") (Some "secret") (Some "wizard") dungeon
  = (Jsonify 400 (message ("Role must be either " +:+ dquote +:+ "admin"
                           +:+ dquote +:+ " or " +:+ dquote +:+ "player"
                           +:+ dquote)), dungeon)
  ∧ register hash_example true "salt" gm_request
      (Some "bob") (Some "secret") None dungeon
    = (Jsonify 400 (message "Username 'bob' already exists"), dungeon)
  ∧ (register hash_example true "salt" gm_request
       (Some "alice") (Some "secret") None dungeon).2
    = dungeon_with_alice.
Proof.
  assert (Hu : "bob"%string ≠ ""%string) by discriminate.
  assert (Ha : "alice"%string ≠ ""%string) by discriminate.
  assert (Hp : "secret"%string ≠ ""%string) by discriminate.
  destruct (register_validates_in_order hash_example true "salt" gm_request
              "bob" "secret" (Some "wizard") dungeon Hu Hp)
    as (_ & Hrole & _).
  destruct (register_validates_in_order hash_example true "salt" gm_request
              "bob" "secret" None dungeon Hu Hp)
    as (_ & _ & Htaken & _).
  destruct (register_validates_in_order hash_example true "salt" gm_request
              "alice" "secret" None dungeon Ha Hp)
    as (_ & _ & _ & Hnew).
  split; [apply Hrole; discriminate|].
  split; [apply Htaken; [by right | by eexists]|].
  rewrite Hnew; [reflexivity | by right | reflexivity | intros _; by eexists].
Defined.

Lemma admin_required_denies decode_jwt token :
  (∀ req, login_required decode_jwt token = inr req →
          user_role req ≠ "admin") →
  ∃ response,
    admin_required decode_jwt token = inl response
    ∧ (status_code response = 401 ∧ login_required decode_jwt token = inl response
       ∨ status_code response = 403
         ∧ ∃ req, login_required decode_jwt token = inr req).
Proof.
  unfold admin_required, login_required. intros Hno.
  destruct token as [[|a t]|]; [by eauto | | by eauto].
  destruct (decode_jwt (String a t)) as [req|]; [|by eauto].
  rewrite bool_decide_eq_true_2 by (by apply Hno). by eauto 10.
Qed.

(** X9.  Without the token of an admin, the three gm-only routes (register,
    create scene, activate scene) do nothing: all three give the same
    response, 401 with login_required's own response when the token is
    missing or invalid and 403 when it is the valid token of another role,
    the store is the one before and nothing is emitted. *)
Theorem gm_only_routes_deny
    (hash_password : string → string → string)
    (decode_jwt : string → option Request) (enforce_fk : bool)
    (salt : string) (auth_header : option string)
    (username password role name : option string) (scene_id : Z)
    (st : Store) :
  (∀ req, login_required decode_jwt (get_token_from_request auth_header)
          = inr req → user_role req ≠ "admin") →
  ∃ response,
    (status_code response = 401
     ∧ login_required decode_jwt (get_token_from_request auth_header)
       = inl response
     ∨ status_code response = 403
       ∧ ∃ req, login_required decode_jwt (get_token_from_request auth_header)
                = inr req)
    ∧ api_register hash_password decode_jwt enforce_fk salt auth_header
                   username password role st = (response, st)
    ∧ api_create_scene decode_jwt enforce_fk auth_header name st
      = (response, st)
    ∧ api_activate_scene decode_jwt auth_header scene_id st
      = (response, st, []).
Proof.
  intros Hno.
  destruct (admin_required_denies decode_jwt _ Hno) as (response & Hdeny & Hst).
  exists response. split; [done|].
  unfold api_register, api_create_scene, api_activate_scene, decorated.
  by rewrite Hdeny.
Qed.

Lemma gm_only_routes_deny_witness :
  api_create_scene decode_example true (Some "Bearer bob-token")
                   (Some "Crypt") dungeon
  = (Jsonify 403 (message "Admin privileges required"), dungeon)
  ∧ api_activate_scene decode_example (Some "bob-token") 2 dungeon
    = (Jsonify 401 (message "Authentication token is missing"), dungeon, [])
  ∧ status_code
      (api_get_scene decode_example (Some "Bearer bob-token") 1 dungeon)
    = 200.
Proof.
  destruct (gm_only_routes_deny hash_example decode_example true "salt"
              (Some "Bearer bob-token") None None None (Some "Crypt") 2 dungeon)
    as (response & _ & _ & Hcreate & _).
  { intros req [= <-]. discriminate. }
  split; [|split; reflexivity].
  rewrite Hcreate. f_equal.
  assert ((api_create_scene decode_example true (Some "Bearer bob-token")
             (Some "Crypt") dungeon).1
          = Jsonify 403 (message "Admin privileges required")) as H
    by reflexivity.
  by rewrite Hcreate in H.
Defined.

(** ** create_tables *)

Lemma first_admin_None st :
  head (filter (λ r : Z * User.t, User.role r.2 = "admin") (all (users st)))
  = None
  ↔ ∀ uid user, users st !! uid = Some user → User.role user ≠ "admin".
Proof.
  rewrite head_filter_None. split.
  - intros Hno uid user Hu. apply (Hno (uid, user)). by apply elem_of_all.
  - intros Hno [uid user] Hin. apply (Hno uid user). by apply elem_of_all.
Qed.

Lemma first_admin_Some st uid user :
  users st !! uid = Some user → User.role user = "admin" →
  is_Some (head (filter (λ r : Z * User.t, User.role r.2 = "admin")
                        (all (users st)))).
Proof.
  intros Hu Hrole.
  destruct (head _) as [r|] eqn:Hh; [by eexists|].
  rewrite first_admin_None in Hh. by destruct (Hh uid user Hu).
Qed.

(** X10.  create_tables makes sure an admin exists, if it can: after it,
    either some user has the role 'admin', or nothing was changed because
    the admin username is held by a user of another role (the ValueError is
    only logged).  A store that has an admin is left as it is, so running
    create_tables again changes nothing. *)
Theorem create_tables_once
    (hash_password : string → string → string) (enforce_fk : bool)
    (salt salt' : string) (admin_username admin_password : option string)
    (st : Store) :
  let st1 :=
    (create_tables hash_password enforce_fk salt
                   admin_username admin_password st).1 in
  ((∃ uid user, users st1 !! uid = Some user ∧ User.role user = "admin")
   ∨ st1 = st
     ∧ ∃ uid user, users st !! uid = Some user
                   ∧ User.username user = default "admin" admin_username
                   ∧ User.role user ≠ "admin")
  ∧ ((∃ uid user, users st !! uid = Some user ∧ User.role user = "admin") →
       create_tables hash_password enforce_fk salt
                     admin_username admin_password st = (st, None))
  ∧ (create_tables hash_password enforce_fk salt'
                   admin_username admin_password st1).1 = st1.
Proof.
  cbn zeta.
  assert (Hkeep : ∀ s sa, (∃ uid user, users s !! uid = Some user
                                       ∧ User.role user = "admin") →
            create_tables hash_password enforce_fk sa
                          admin_username admin_password s = (s, None)).
  { intros s sa (uid & user & Hu & Hrole). unfold create_tables.
    by destruct (first_admin_Some s uid user Hu Hrole) as [r ->]. }
  set (st1 := (create_tables hash_password enforce_fk salt
                             admin_username admin_password st).1).
  assert ((∃ uid user, users st1 !! uid = Some user ∧ User.role user = "admin")
          ∨ st1 = st
            ∧ ∃ uid user, users st !! uid = Some user
                          ∧ User.username user = default "admin" admin_username
                          ∧ User.role user ≠ "admin") as Hpost.
  { subst st1. unfold create_tables.
    destruct (head _) as [[uid user]|] eqn:Hh.
    + left. apply head_filter_Some in Hh as [Hin Hrole].
      apply elem_of_all in Hin. by eauto.
    + destruct (register_user _ _ _ _ _ _ _ _)
        as [[[uid user] st']|msg|] eqn:Hreg; cbn.
      * left. apply register_user_Returns in Hreg as (_ & -> & -> & ->).
        eexists _, _. split; [apply lookup_insert_eq|done].
      * right. split; [done|].
        apply register_user_ValueError in Hreg as [[[uid user] Hf] _].
        apply find_user_Some in Hf as [Hu Hname].
        exists uid, user. split; [done|]. split; [done|].
        rewrite first_admin_None in Hh. by apply (Hh uid user).
      * by apply register_user_CommitRefused in Hreg as (_ & ? & ? & _). }
  split; [exact Hpost|]. split; [apply Hkeep|].
  destruct Hpost as [Hadmin | [-> (uid & user & Hu & Hname & Hrole)]].
  - by rewrite Hkeep.
  - unfold create_tables.
    destruct (head _) as [r|]; [done|].
    destruct (find_user st (default "admin" admin_username)) as [r|] eqn:Hf.
    + unfold register_user. by rewrite Hf.
    + rewrite find_user_None in Hf. by destruct (Hf uid user Hu).
Qed.

(** X11.  On a store without an admin in which the admin username is free,
    create_tables registers the admin, and a login with ADMIN_USERNAME and
    ADMIN_PASSWORD, or with 'admin' and 'admin' when they are not set, is
    answered 200 with the role 'admin' (given that the library verifies a
    password against its own hash). *)
Theorem bootstrap_admin_can_log_in
    (hash_password : string → string → string)
    (verify_password : string → string → bool)
    (generate_jwt : Z → string → string) (enforce_fk : bool)
    (salt : string) (admin_username admin_password : option string)
    (st : Store) :
  let username := default "admin" admin_username in
  let password := default "admin" admin_password in
  (∀ uid user, users st !! uid = Some user → User.role user ≠ "admin") →
  find_user st username = None →
  verify_password password (hash_password salt password) = true →
  username ≠ "" → password ≠ "" →
  let st1 :=
    (create_tables hash_password enforce_fk salt
                   admin_username admin_password st).1 in
  users st1
  = <[next_id (users st) :=
        User.mk username (hash_password salt password) "admin" None]>
      (users st)
  ∧ login verify_password generate_jwt st1 (Some username) (Some password)
    = Jsonify 200 (JObj {[
        "token" := JStr (generate_jwt (next_id (users st)) "admin");
        "user" := JObj {[ "id" := JInt (next_id (users st));
                          "username" := JStr username;
                          "role" := JStr "admin" ]} ]}).
Proof.
  intros username password Hnoadmin Hfree Hv Hu Hp st1. subst st1.
  unfold create_tables.
  rewrite (proj2 (first_admin_None st) Hnoadmin).
  fold username password.
  pose proof (register_user_new hash_password enforce_fk salt st
                username password "admin" None Hfree) as Hreg.
  rewrite Hreg by done. cbn [fst]. split; [done|].
  apply (login_after_register hash_password verify_password generate_jwt
           salt st username password "admin" None); done.
Qed.

Lemma bootstrap_admin_can_log_in_witness :
  login verify_example jwt_example
    (create_tables hash_example true "salt" None None empty_store).1
    (Some "admin") (Some "admin")
  = Jsonify 200 (JObj {[
      "token" := JStr "jwt-for-admin";
      "user" := JObj {[ "id" := JInt 1; "username" := JStr "admin";
                        "role" := JStr "admin" ]} ]}).
Proof.
  assert (Hne : "admin"%string ≠ ""%string) by discriminate.
  refine (proj2 (bootstrap_admin_can_log_in hash_example verify_example
                   jwt_example true "salt" None None empty_store
                   _ eq_refl eq_refl Hne Hne)).
  intros uid user Hu. cbn in Hu. by rewrite lookup_empty in Hu.
Defined.

(** ** Tables as ordered lists *)

#[global] Instance by_key_transitive {A} : Transitive (@by_key A).
Proof. intros x y z. unfold by_key. lia. Qed.

#[global] Instance by_key_total {A} : Total (@by_key A).
Proof. intros x y. unfold by_key. lia. Qed.

Lemma StronglySorted_all {A} (tbl : gmap Z A) : StronglySorted by_key (all tbl).
Proof. apply StronglySorted_merge_sort; apply _. Qed.

Lemma all_characterised {A} (tbl : gmap Z A) (l : list (Z * A)) :
  StronglySorted by_key l → NoDup l →
  (∀ k row, (k, row) ∈ l ↔ tbl !! k = Some row) →
  l = all tbl.
Proof.
  intros Hsorted Hnodup Helem.
  apply (StronglySorted_unique_strong by_key);
    [|done|apply StronglySorted_all|].
  - intros [k1 r1] [k2 r2] H1 H2 H12 H21. unfold by_key in *. cbn in *.
    apply Helem in H1. apply elem_of_all in H2.
    assert (k1 = k2) as -> by lia. congruence.
  - apply NoDup_Permutation; [done | apply NoDup_all|].
    intros [k row]. by rewrite Helem, elem_of_all.
Qed.

Lemma all_insert_last {A} (tbl : gmap Z A) (k : Z) (row : A) :
  (∀ j, is_Some (tbl !! j) → j < k) →
  all (<[k := row]> tbl) = all tbl ++ [(k, row)].
Proof.
  intros Hlast. symmetry. apply all_characterised.
  - apply StronglySorted_app_2.
    + intros [k1 r1] x2 H1 H2. apply list_elem_of_singleton in H2 as ->.
      apply elem_of_all in H1. unfold by_key. cbn.
      assert (k1 < k) by (apply Hlast; by eexists). lia.
    + apply StronglySorted_all.
    + repeat constructor.
  - apply NoDup_app. split; [apply NoDup_all|]. split; [|apply NoDup_singleton].
    intros [k1 r1] H1 H2. apply list_elem_of_singleton in H2.
    simplify_eq.
    apply elem_of_all in H1.
    assert (k < k) by (apply Hlast; by eexists). lia.
  - intros j r. rewrite elem_of_app, list_elem_of_singleton, elem_of_all.
    destruct (decide (j = k)) as [-> | Hne].
    + rewrite lookup_insert_eq. split.
      * intros [Hin | [= ->]]; [|done].
        assert (k < k) by (apply Hlast; by eexists). lia.
      * intros [= ->]. by right.
    + rewrite lookup_insert_ne by done. split; [|by left].
      intros [? | [= ? ?]]; [done|]. done.
Qed.

Lemma all_add {A} (tbl : gmap Z A) (row : A) :
  all (<[next_id tbl := row]> tbl) = all tbl ++ [(next_id tbl, row)].
Proof.
  apply all_insert_last. intros j Hj.
  apply elem_of_keys, foldr_max_bound in Hj. unfold next_id. lia.
Qed.

Lemma all_update {A} (tbl : gmap Z A) (k : Z) (old row : A) :
  tbl !! k = Some old →
  all (<[k := row]> tbl)
  = (λ r, if bool_decide (r.1 = k) then (k, row) else r) <$> all tbl.
Proof.
  intros Hk. symmetry.
  set (f := λ r : Z * A, if bool_decide (r.1 = k) then (k, row) else r).
  assert (Hfst : ∀ r, (f r).1 = r.1).
  { intros r. unfold f. by case_bool_decide. }
  apply all_characterised.
  - apply (StronglySorted_fmap f by_key by_key); [|apply StronglySorted_all].
    intros x y. unfold by_key. by rewrite !Hfst.
  - apply (NoDup_fmap_1 fst). rewrite <- list_fmap_compose.
    rewrite (list_fmap_ext (fst ∘ f) fst (all tbl)) by (intros; apply Hfst).
    unfold all. rewrite merge_sort_Permutation. apply NoDup_fst_map_to_list.
  - intros j r. rewrite list_elem_of_fmap. split.
    + intros ([j' r'] & Hf & Hin). apply elem_of_all in Hin.
      unfold f in Hf. cbn in Hf. case_bool_decide as Hj.
      * injection Hf as -> ->. apply lookup_insert_eq.
      * injection Hf as -> ->. by rewrite lookup_insert_ne.
    + destruct (decide (j = k)) as [-> | Hne].
      * rewrite lookup_insert_eq. intros [= ->]. exists (k, old).
        split; [|by apply elem_of_all].
        unfold f. cbn. by rewrite bool_decide_eq_true_2.
      * rewrite lookup_insert_ne by done. intros Hj. exists (j, r).
        split; [|by apply elem_of_all].
        unfold f. cbn. by rewrite bool_decide_eq_false_2.
Qed.

(** ** Listing, activating and creating scenes *)

Lemma filter_none {A} (P : A → Prop) `{∀ x, Decision (P x)} (l : list A) :
  (∀ x, x ∈ l → ¬ P x) → filter P l = [].
Proof.
  intros Hno. destruct (filter P l) as [|y ys] eqn:Hf; [done|].
  assert (y ∈ filter P l) as Hy by (rewrite Hf; apply list_elem_of_here).
  apply list_elem_of_filter in Hy as [HP Hin]. by destruct (Hno y Hin).
Qed.

Lemma filter_all {A} (P : A → Prop) `{∀ x, Decision (P x)} (l : list A) :
  (∀ x, x ∈ l → P x) → filter P l = l.
Proof.
  induction l as [|x l IH]; intros Hall; [done|].
  rewrite filter_cons_True by (apply Hall, list_elem_of_here).
  f_equal. apply IH. intros y Hy. by apply Hall, list_elem_of_further.
Qed.

Lemma only_element {A} (l : list A) (a : A) :
  NoDup l → (∀ x, x ∈ l ↔ x = a) → l = [a].
Proof.
  intros Hnodup Hel.
  destruct l as [|x l].
  { pose proof (proj2 (Hel a) eq_refl) as Hin. by apply elem_of_nil in Hin. }
  assert (x = a) as -> by (apply Hel, list_elem_of_here).
  f_equal. destruct l as [|y l]; [done|].
  assert (y = a) as -> by (apply Hel, list_elem_of_further, list_elem_of_here).
  apply NoDup_cons in Hnodup as [Hnotin _].
  destruct Hnotin. apply list_elem_of_here.
Qed.

Lemma get_scene_status req scene_id st :
  status_code (get_scene req scene_id st) = 200
  ↔ ∃ scene, scenes st !! scene_id = Some scene
             ∧ (user_role req = "admin" ∨ Scene.active scene = true).
Proof.
  destruct (scenes st !! scene_id) as [scene|] eqn:Hs.
  - destruct (decide (user_role req = "admin")) as [Hr | Hr].
    + rewrite (get_scene_shown req scene_id scene st) by auto. cbn.
      split; [by eauto|done].
    + destruct (Scene.active scene) eqn:Ha.
      * rewrite (get_scene_shown req scene_id scene st) by auto. cbn.
        split; [by eauto|done].
      * rewrite (get_scene_hidden req scene_id scene st) by done. cbn.
        split; [done|]. intros (scene' & [= <-] & [? | ?]); congruence.
  - rewrite get_scene_missing by done. cbn. split; [done|].
    by intros (scene' & ? & _).
Qed.

(** X12.  The scene listing and the scene detail agree: GET /api/scenes
    lists each scene at most once, an admin gets every scene and any other
    role exactly the active ones, and a scene id is listed for a requester
    exactly when GET /api/scenes/<id> answers that requester with 200. *)
Theorem get_scenes_lists_what_get_scene_serves (req : Request) (st : Store) :
  ∃ listed,
    get_scenes req st
    = Jsonify 200 (JObj {[
        "scenes" := JArr ((λ r, JObj (scene_json r.1 r.2)) <$> listed) ]})
    ∧ NoDup listed
    ∧ (∀ scene_id scene,
         (scene_id, scene) ∈ listed
         ↔ scenes st !! scene_id = Some scene
           ∧ (user_role req = "admin" ∨ Scene.active scene = true))
    ∧ (∀ scene_id,
         (∃ scene, (scene_id, scene) ∈ listed)
         ↔ status_code (get_scene req scene_id st) = 200).
Proof.
  unfold get_scenes.
  assert (∀ listed,
            NoDup listed →
            (∀ scene_id scene,
               (scene_id, scene) ∈ listed
               ↔ scenes st !! scene_id = Some scene
                 ∧ (user_role req = "admin" ∨ Scene.active scene = true)) →
            NoDup listed
            ∧ (∀ scene_id scene,
                 (scene_id, scene) ∈ listed
                 ↔ scenes st !! scene_id = Some scene
                   ∧ (user_role req = "admin" ∨ Scene.active scene = true))
            ∧ (∀ scene_id,
                 (∃ scene, (scene_id, scene) ∈ listed)
                 ↔ status_code (get_scene req scene_id st) = 200)) as Hpack.
  { intros listed Hnd Hel. split; [done|]. split; [done|].
    intros scene_id. rewrite get_scene_status.
    split; intros [scene Hs]; exists scene; by apply Hel. }
  case_bool_decide as Hr.
  - exists (all (scenes st)). split; [done|]. apply Hpack; [apply NoDup_all|].
    intros scene_id scene. rewrite elem_of_all. split; [by auto|by intros [? _]].
  - exists (filter (λ r, Scene.active r.2 = true) (all (scenes st))).
    split; [done|]. apply Hpack; [apply NoDup_filter, NoDup_all|].
    intros scene_id scene. rewrite list_elem_of_filter, elem_of_all. cbn.
    split; [intros [? ?]; by auto|]. intros [? [? | ?]]; done.
Qed.

Lemma activate_scene_found scene_id scene st :
  scenes st !! scene_id = Some scene →
  activate_scene scene_id st
  = (Jsonify 200 (JObj {[
       "message" := JStr "Scene activated successfully";
       "scene" := JObj {[ "id" := JInt scene_id;
                          "name" := JStr (Scene.name scene);
                          "active" := JBool true ]} ]}),
     set_scenes (alter (Scene.set_active true) scene_id
                       (Scene.set_active false <$> scenes st)) st,
     [mkEmit "scene_activated"
             {[ "scene_id" := JInt scene_id;
                "name" := JStr (Scene.name scene) ]} None]).
Proof. intros Hs. unfold activate_scene. by rewrite Hs. Qed.

(** X13.  After a scene was activated, the listing of a requester who is
    not admin consists of that scene alone, shown as active. *)
Theorem player_lists_only_the_activated_scene
    (req : Request) (scene_id : Z) (scene : Scene.t) (st : Store) :
  scenes st !! scene_id = Some scene →
  user_role req ≠ "admin" →
  get_scenes req (activate_scene scene_id st).1.2
  = Jsonify 200 (JObj {[
      "scenes" := JArr [JObj (scene_json scene_id
                                (Scene.set_active true scene))] ]}).
Proof.
  intros Hs Hr. unfold get_scenes. rewrite bool_decide_eq_false_2 by done.
  rewrite (only_element _ (scene_id, Scene.set_active true scene)); [done| |].
  - apply NoDup_filter, NoDup_all.
  - intros [j sj]. rewrite list_elem_of_filter, elem_of_all. cbn.
    rewrite activate_scene_scenes by eauto. split.
    + intros [Ha Hj]. apply fmap_Some in Hj as (s0 & Hs0 & ->).
      cbn in Ha. apply bool_decide_eq_true in Ha as ->.
      rewrite Hs in Hs0. injection Hs0 as <-.
      by rewrite bool_decide_eq_true_2.
    + intros [= -> ->]. split; [done|].
      by rewrite Hs, bool_decide_eq_true_2.
Qed.

Lemma player_lists_only_the_activated_scene_witness :
  get_scenes player_request (activate_scene 2 dungeon).1.2
  = Jsonify 200 (JObj {[
      "scenes" := JArr [JObj {[ "id" := JInt 2; "name" := JStr "Cave";
                                "thumbnail_path" := JNull;
                                "active" := JBool true ]}] ]}).
Proof.
  apply (player_lists_only_the_activated_scene player_request 2
           (Scene.mk "Cave" None false 7 None None) dungeon);
    [reflexivity | discriminate].
Defined.

(** X14.  The last activation wins: activating an existing scene gives the
    same response, store and event whether or not another activation
    request (for any id, the same one included) was handled just before. *)
Theorem activate_scene_last_wins (first scene_id : Z) (st : Store) :
  is_Some (scenes st !! scene_id) →
  activate_scene scene_id (activate_scene first st).1.2
  = activate_scene scene_id st.
Proof.
  intros [scene Hs].
  destruct (scenes st !! first) as [scene1|] eqn:H1;
    [|by rewrite (activate_scene_missing first st)].
  assert (scenes (activate_scene first st).1.2 !! scene_id
          = Some (Scene.set_active (bool_decide (scene_id = first)) scene))
    as Hs'.
  { rewrite activate_scene_scenes by eauto. by rewrite Hs. }
  rewrite (activate_scene_found _ _ _ Hs'), (activate_scene_found _ _ _ Hs).
  cbn [Scene.name Scene.set_active].
  rewrite (activate_scene_found _ _ _ H1). cbn. unfold set_scenes. cbn.
  do 3 f_equal. apply map_eq. intros j.
  destruct (decide (j = scene_id)) as [-> | Hj].
  - rewrite !lookup_alter_eq, !lookup_fmap.
    destruct (decide (scene_id = first)) as [-> | Hne].
    + rewrite lookup_alter_eq, lookup_fmap, Hs. by destruct scene.
    + rewrite lookup_alter_ne, lookup_fmap, Hs by done. by destruct scene.
  - rewrite !(lookup_alter_ne _ _ scene_id j) by done. rewrite !lookup_fmap.
    destruct (decide (j = first)) as [-> | Hne].
    + rewrite lookup_alter_eq, lookup_fmap. by destruct (scenes st !! first).
    + rewrite lookup_alter_ne, lookup_fmap by done.
      by destruct (scenes st !! j) as [[]|].
Qed.

Lemma activate_scene_last_wins_witness :
  activate_scene 2 (activate_scene 1 dungeon).1.2 = activate_scene 2 dungeon
  ∧ activate_scene 2 (activate_scene 2 dungeon).1.2 = activate_scene 2 dungeon.
Proof.
  split.
  - apply (activate_scene_last_wins 1 2 dungeon). by eexists.
  - apply (activate_scene_last_wins 2 2 dungeon). by eexists.
Defined.

(** X15.  An activation emits one scene_activated event with the id and
    the name of the scene and no skipped client: every connected client
    receives it, the socket of the gm who activated included. *)
Theorem scene_activated_reaches_everyone
    (scene_id : Z) (scene : Scene.t) (st : Store) (clients : list string) :
  scenes st !! scene_id = Some scene →
  ∃ e, (activate_scene scene_id st).2 = [e]
       ∧ event e = "scene_activated"
       ∧ data e = {[ "scene_id" := JInt scene_id;
                     "name" := JStr (Scene.name scene) ]}
       ∧ recipients clients e = clients.
Proof.
  intros Hs. rewrite (activate_scene_found _ _ _ Hs). cbn.
  eexists. split; [done|]. split; [done|]. split; [done|].
  unfold recipients. by apply filter_all.
Qed.

Lemma scene_activated_reaches_everyone_witness :
  ∃ e, (activate_scene 2 dungeon).2 = [e]
       ∧ recipients ["A"; "B"]%string e = ["A"; "B"]%string.
Proof.
  destruct (scene_activated_reaches_everyone 2
              (Scene.mk "Cave" None false 7 None None) dungeon
              ["A"; "B"]%string eq_refl) as (e & He & _ & _ & Hr).
  by exists e.
Defined.
(** ** The scene creation route *)

Lemma admin_required_status decode_jwt token response :
  admin_required decode_jwt token = inl response →
  status_code response = 401 ∨ status_code response = 403.
Proof.
  unfold admin_required.
  destruct token as [[|a t]|]; [by intros [= <-]; left | | by intros [= <-]; left].
  destruct (decode_jwt (String a t)) as [req|]; [|by intros [= <-]; left].
  case_bool_decide; [by intros [= <-]; right | done].
Qed.

(** X16.  POST /api/scenes never stores anything, whatever the header and
    the body: the request is turned away by the decorator (401 or 403), or
    answered 400 for a missing or empty name, or, for a gm with a name,
    fails at the commit (500).  In each case the store is the one before,
    and the answer is never 201. *)
Theorem create_scene_route_stores_nothing
    (decode_jwt : string → option Request) (enforce_fk : bool)
    (auth_header : option string) (name : option string) (st : Store) :
  let result := api_create_scene decode_jwt enforce_fk auth_header name st in
  let guard :=
    admin_required decode_jwt (get_token_from_request auth_header) in
  result.2 = st
  ∧ (∀ response, guard = inl response → result.1 = response)
  ∧ (∀ req, guard = inr req → falsy name = true →
            result.1 = Jsonify 400 (message "Scene name is required"))
  ∧ (∀ req, guard = inr req → falsy name = false → result.1 = Abort 500)
  ∧ status_code result.1 ≠ 201.
Proof.
  cbn zeta. unfold api_create_scene, decorated.
  destruct (admin_required decode_jwt (get_token_from_request auth_header))
    as [response | req] eqn:Hguard.
  - cbn. split; [done|]. split; [by intros ? [= <-]|].
    split; [done|]. split; [done|].
    destruct (admin_required_status _ _ _ Hguard) as [-> | ->]; done.
  - unfold create_scene. rewrite create_scene_no_insert_order.
    destruct (falsy name); cbn; repeat split; done.
Qed.
(** ** The realtime handlers *)

Lemma moved_token_keeps d data token token' :
  moved_token d data token = Takes token' →
  Token.layer_id token' = Token.layer_id token
  ∧ Token.image_path token' = Token.image_path token
  ∧ Token.z_index token' = Token.z_index token
  ∧ Token.metadata token' = Token.metadata token.
Proof.
  intros H. by apply moved_token_Takes in H as (x & y & s & r & _ & _ & _ & _ & ->).
Qed.

(** What a token_moved event leaves in the store, where the handler has a
    result: the row it wrote in the place of the token, or the store as it
    was. *)
Lemma handle_token_moved_store d sid data st out :
  handle_token_moved d sid data st = Some out →
  (∃ k token token',
      identify d (get data "token_id") = Key k
      ∧ tokens st !! k = Some token
      ∧ moved_token d data token = Takes token'
      ∧ out = committed (set_tokens (<[k := token']> (tokens st)) st)
                        [mkEmit "token_moved" data (Some sid)])
  ∨ store out = st ∧ emitted out = []
    ∧ ∀ k token, identify d (get data "token_id") = Key k →
                 tokens st !! k = Some token →
                 moved_token d data token = Refuses.
Proof.
  unfold handle_token_moved.
  destruct (query_get d (tokens st) (get data "token_id"))
    as [k token| |] eqn:Hq.
  - apply query_get_Row in Hq as [Hid Hk].
    destruct (moved_token d data token) as [token'| |] eqn:Hm; [| |done].
    + intros [= <-]. left. by exists k, token, token'.
    + intros [= <-]. right. split; [done|]. split; [done|].
      intros k' token0 Hid' Hk'. rewrite Hid in Hid'. injection Hid' as <-.
      rewrite Hk in Hk'. by injection Hk' as <-.
  - intros [= <-]. right. split; [done|]. split; [done|].
    intros k token Hid Hk.
    by rewrite (proj2 (query_get_Row d (tokens st) _ k token) (conj Hid Hk))
      in Hq.
  - intros [= <-]. right. split; [done|]. split; [done|].
    intros k token Hid Hk.
    by rewrite (proj2 (query_get_Row d (tokens st) _ k token) (conj Hid Hk))
      in Hq.
Qed.

(** X20.  token_moved neither adds nor removes a token and never moves
    one to another layer: whatever the payload and whatever the store
    makes of its values, the stored token ids are the same after it, every
    token keeps its layer, image, z_index and metadata, and all other
    tables are untouched. *)
Theorem token_moved_keeps_tokens_in_place
    (d : Dialect) (sid : string) (data : gmap string json) (st : Store)
    (out : Outcome) :
  handle_token_moved d sid data st = Some out →
  let st' := store out in
  (∀ k, is_Some (tokens st' !! k) ↔ is_Some (tokens st !! k))
  ∧ (∀ k token token',
       tokens st !! k = Some token → tokens st' !! k = Some token' →
       Token.layer_id token' = Token.layer_id token
       ∧ Token.image_path token' = Token.image_path token
       ∧ Token.z_index token' = Token.z_index token
       ∧ Token.metadata token' = Token.metadata token)
  ∧ users st' = users st ∧ scenes st' = scenes st ∧ layers st' = layers st
  ∧ drawings st' = drawings st ∧ text_elements st' = text_elements st.
Proof.
  intros Hout. cbn zeta.
  destruct (handle_token_moved_store d sid data st out Hout)
    as [(k0 & token0 & token1 & _ & Hk0 & Hm & ->) | (-> & _)];
    [|by repeat split; congruence].
  cbn. split; [|split; [|done]].
  - intros k. destruct (decide (k = k0)) as [-> | Hne].
    + rewrite lookup_insert_eq, Hk0. split; by eauto.
    + by rewrite lookup_insert_ne.
  - intros k token token' Hk Hk'. destruct (decide (k = k0)) as [-> | Hne].
    + rewrite lookup_insert_eq in Hk'. injection Hk' as <-.
      rewrite Hk0 in Hk. injection Hk as <-. by apply (moved_token_keeps d data).
    + rewrite lookup_insert_ne in Hk' by done. by simplify_eq.
Qed.

Lemma token_moved_keeps_tokens_in_place_witness :
  ∃ out, handle_token_moved example_dialect "A" move_5_untyped dungeon
         = Some out
         ∧ is_Some (tokens (store out) !! 6)
         ∧ ¬ is_Some (tokens (store out) !! 7).
Proof.
  eexists. split; [reflexivity|].
  destruct (token_moved_keeps_tokens_in_place example_dialect "A"
              move_5_untyped dungeon _ eq_refl) as (Hdom & _).
  split.
  - apply Hdom. by eexists.
  - intros H. apply Hdom in H. by destruct H.
Defined.

Lemma filter_fmap_same {A} (P : A → Prop) `{∀ x, Decision (P x)}
    (f : A → A) (l : list A) :
  (∀ x, x ∈ l → P (f x) ↔ P x) → filter P (f <$> l) = f <$> filter P l.
Proof.
  induction l as [|x l IH]; intros Hf; [done|]. cbn [fmap list_fmap].
  assert (filter P (f <$> l) = f <$> filter P l) as IH'
    by (apply IH; intros y Hy; by apply Hf, list_elem_of_further).
  pose proof (Hf x (list_elem_of_here _ _)) as Hx.
  destruct (decide (P x)) as [HP | HP].
  - rewrite !filter_cons_True by tauto. cbn. by rewrite <- IH'.
  - rewrite !filter_cons_False by tauto. done.
Qed.

Lemma handle_token_moved_accepted d sid data st k token token' :
  identify d (get data "token_id") = Key k → tokens st !! k = Some token →
  moved_token d data token = Takes token' →
  handle_token_moved d sid data st
  = Some (committed (set_tokens (<[k := token']> (tokens st)) st)
                    [mkEmit "token_moved" data (Some sid)]).
Proof.
  intros Hid Hk Hm.
  by rewrite (handle_token_moved_found d sid data st k token Hid Hk), Hm.
Qed.

Lemma moved_token_position d data token token' :
  moved_token d data token = Takes token' →
  required (bind_float d) (get data "x") = Takes (Token.x token')
  ∧ required (bind_float d) (get data "y") = Takes (Token.y token').
Proof.
  intros H.
  by apply moved_token_Takes in H as (x & y & s & r & Hx & Hy & _ & _ & ->).
Qed.
(** X21.  A move that was accepted is what the next scene detail shows:
    on every layer whose children the requester is shown, the list of
    tokens is the list of before, in the same order, with the moved
    token's row replaced by the row the handler wrote, whose x and y are
    the values the column takes for the payload's. *)
Theorem token_moved_is_read_back
    (d : Dialect) (sid : string) (data : gmap string json) (st : Store)
    (k : Z) (token token' : Token.t) (req : Request) (r : Z * Layer.t) :
  identify d (get data "token_id") = Key k →
  tokens st !! k = Some token →
  moved_token d data token = Takes token' →
  Layer.type r.2 = "player" ∨ user_role req = "admin" →
  ∃ out,
    handle_token_moved d sid data st = Some out
    ∧ let st' := store out in
      let shown := λ row : Z * Token.t,
                     if bool_decide (row.1 = k) then (k, token') else row in
      related Token.layer_id r.1 (tokens st')
      = shown <$> related Token.layer_id r.1 (tokens st)
      ∧ layer_data req st' r !! "tokens"
        = Some (JArr (token_json
                        <$> (shown <$> related Token.layer_id r.1 (tokens st))))
      ∧ required (bind_float d) (get data "x") = Takes (Token.x token')
      ∧ required (bind_float d) (get data "y") = Takes (Token.y token').
Proof.
  intros Hid Hk Hm Hshow.
  rewrite (handle_token_moved_accepted d sid data st k token token') by done.
  eexists. split; [done|]. intros st' shown. subst st'.
  cbn [store committed].
  set (st' := set_tokens _ st).
  assert (related Token.layer_id r.1 (tokens st')
          = shown <$> related Token.layer_id r.1 (tokens st)) as Hrel.
  { cbn. unfold related. rewrite (all_update _ k token token') by done.
    apply filter_fmap_same. intros [j row] Hin. apply elem_of_all in Hin.
    unfold shown. cbn in *. case_bool_decide as Hj; [|done]. cbn. subst j.
    rewrite Hk in Hin. injection Hin as <-.
    by destruct (moved_token_keeps _ _ _ _ Hm) as (-> & _). }
  split; [done|]. split; [|by apply (moved_token_position d data token)].
  destruct (layer_data_detail req st' r Hshow) as (-> & _). by rewrite Hrel.
Qed.

Lemma token_moved_is_read_back_witness :
  ∃ out,
    handle_token_moved example_dialect "A" move_5_untyped dungeon = Some out
    ∧ layer_data player_request (store out)
        (2, Layer.mk 1 "Player" 1 "player" false) !! "tokens"
      = Some (JArr [token_json
                      (5, Token.mk 2 "hero.png" 9007199254740992 20 1 0 0
                                   JNull)]).
Proof.
  destruct (token_moved_is_read_back example_dialect "A" move_5_untyped dungeon
              5 (Token.mk 2 "hero.png" 0 0 1 0 0 JNull)
              (Token.mk 2 "hero.png" 9007199254740992 20 1 0 0 JNull)
              player_request (2, Layer.mk 1 "Player" 1 "player" false)
              eq_refl eq_refl eq_refl (or_introl eq_refl))
    as (out & Hout & _ & H & _).
  exists out. split; [exact Hout | exact H].
Defined.

Lemma query_get_insert_ne {A} (d : Dialect) (tbl : gmap Z A) ident k row :
  identify d ident ≠ Key k →
  query_get d (<[k := row]> tbl) ident = query_get d tbl ident.
Proof.
  intros Hne. unfold query_get.
  destruct (identify d ident) as [k'| |]; [|done|done].
  rewrite lookup_insert_ne; [done | congruence].
Qed.

(** A move of another token finds what it found before and writes the
    same row. *)
Lemma handle_token_moved_frame d sid data st k0 row0 :
  identify d (get data "token_id") ≠ Key k0 →
  let st0 := set_tokens (<[k0 := row0]> (tokens st)) st in
  handle_token_moved d sid data st0
  = match query_get d (tokens st) (get data "token_id") with
    | Row k token =>
        match moved_token d data token with
        | Takes token' =>
            Some (committed
                    (set_tokens (<[k := token']> (<[k0 := row0]> (tokens st)))
                                st)
                    [mkEmit "token_moved" data (Some sid)])
        | Refuses => Some (rejected st0)
        | Keeps => None
        end
    | NoRow => Some (mkOutcome st0 [] None)
    | QueryFails => Some (rejected st0)
    end.
Proof.
  intros Hne st0. unfold handle_token_moved. subst st0. cbn [tokens set_tokens].
  rewrite (query_get_insert_ne d (tokens st) _ k0 row0 Hne).
  destruct (query_get d (tokens st) (get data "token_id")); [|done|done].
  by destruct (moved_token d data row).
Qed.

(** X22.  Moves of different tokens do not interfere: when the store
    does not compare the token_id of two token_moved events with the same
    key, handling them leaves the same store in either order, also when one
    of the moves is refused or names no stored token. *)
Theorem token_moves_commute
    (d : Dialect) (sid1 sid2 : string) (data1 data2 : gmap string json)
    (st : Store) (o1 o2 : Outcome) :
  (∀ k, identify d (get data1 "token_id") = Key k →
        identify d (get data2 "token_id") ≠ Key k) →
  handle_token_moved d sid1 data1 st = Some o1 →
  handle_token_moved d sid2 data2 st = Some o2 →
  ∃ o12 o21,
    handle_token_moved d sid2 data2 (store o1) = Some o12
    ∧ handle_token_moved d sid1 data1 (store o2) = Some o21
    ∧ store o12 = store o21.
Proof.
  intros Hdiff H1 H2.
  destruct (handle_token_moved_store d sid1 data1 st o1 H1)
    as [(k1 & t1 & t1' & Hid1 & Hk1 & Hm1 & ->) | (Hs1 & _ & Href1)];
    destruct (handle_token_moved_store d sid2 data2 st o2 H2)
    as [(k2 & t2 & t2' & Hid2 & Hk2 & Hm2 & ->) | (Hs2 & _ & Href2)].
  - assert (Hne : k1 ≠ k2) by (intros ->; by apply (Hdiff k2)).
    cbn [store committed].
    rewrite (handle_token_moved_frame d sid2 data2 st k1 t1')
      by (rewrite Hid2; congruence).
    rewrite (handle_token_moved_frame d sid1 data1 st k2 t2')
      by (rewrite Hid1; congruence).
    rewrite (proj2 (query_get_Row d (tokens st) _ k2 t2) (conj Hid2 Hk2)), Hm2.
    rewrite (proj2 (query_get_Row d (tokens st) _ k1 t1) (conj Hid1 Hk1)), Hm1.
    eexists _, _. split; [done|]. split; [done|]. cbn.
    f_equal. by apply insert_insert_ne.
  - cbn [store committed]. rewrite Hs2.
    rewrite (handle_token_moved_accepted d sid1 data1 st k1 t1 t1') by done.
    assert (Hne : identify d (get data2 "token_id") ≠ Key k1)
      by (by apply Hdiff).
    rewrite (handle_token_moved_frame d sid2 data2 st k1 t1' Hne).
    destruct (query_get d (tokens st) (get data2 "token_id"))
      as [k2 t2| |] eqn:Hq.
    + apply query_get_Row in Hq as [Hid2 Hk2].
      rewrite (Href2 k2 t2 Hid2 Hk2). by eexists _, _.
    + by eexists _, _.
    + by eexists _, _.
  - cbn [store committed]. rewrite Hs1.
    rewrite (handle_token_moved_accepted d sid2 data2 st k2 t2 t2') by done.
    assert (Hne : identify d (get data1 "token_id") ≠ Key k2)
      by (intros Hk; by apply (Hdiff k2)).
    rewrite (handle_token_moved_frame d sid1 data1 st k2 t2' Hne).
    destruct (query_get d (tokens st) (get data1 "token_id"))
      as [k1 t1| |] eqn:Hq.
    + apply query_get_Row in Hq as [Hid1 Hk1].
      rewrite (Href1 k1 t1 Hid1 Hk1). by eexists _, _.
    + by eexists _, _.
    + by eexists _, _.
  - rewrite Hs1, Hs2, H1, H2. exists o2, o1. by rewrite Hs1, Hs2.
Qed.

Lemma token_moves_commute_witness :
  (handle_token_moved example_dialect "A" move_5 dungeon
     ≫= λ out, store <$> handle_token_moved example_dialect "B" move_6
                            (store out))
  = (handle_token_moved example_dialect "B" move_6 dungeon
       ≫= λ out, store <$> handle_token_moved example_dialect "A" move_5
                              (store out)).
Proof.
  destruct (handle_token_moved example_dialect "A" move_5 dungeon)
    as [o1|] eqn:H1; [|discriminate H1].
  destruct (handle_token_moved example_dialect "B" move_6 dungeon)
    as [o2|] eqn:H2; [|discriminate H2].
  destruct (token_moves_commute example_dialect "A" "B" move_5 move_6 dungeon
              o1 o2) as (o12 & o21 & H12 & H21 & Heq);
    [by intros k [= <-] | exact H1 | exact H2 |].
  cbn. rewrite H12, H21. cbn. by rewrite Heq.
Defined.

(** X23.  The last complete move wins: a move whose x, y, rotation and
    scale are all present and taken by the store leaves the same store
    whether or not another token_moved event for the same token was
    handled before it. *)
Theorem token_moved_last_write_wins
    (d : Dialect) (sid1 sid2 : string) (data1 data2 : gmap string json)
    (st : Store) (k : Z) (x y rotation scale : Q) (o1 : Outcome) :
  identify d (get data1 "token_id") = Key k →
  identify d (get data2 "token_id") = Key k →
  is_Some (tokens st !! k) →
  required (bind_float d) (get data2 "x") = Takes x →
  required (bind_float d) (get data2 "y") = Takes y →
  required (bind_float d) (get data2 "rotation") = Takes rotation →
  required (bind_float d) (get data2 "scale") = Takes scale →
  handle_token_moved d sid1 data1 st = Some o1 →
  ∃ o2 o12,
    handle_token_moved d sid2 data2 st = Some o2
    ∧ handle_token_moved d sid2 data2 (store o1) = Some o12
    ∧ store o12 = store o2.
Proof.
  intros Hid1 Hid2 [token Hk] Hx Hy Hr Hs H1.
  assert (Hfull : ∀ t, moved_token d data2 t
            = Takes (Token.mk (Token.layer_id t) (Token.image_path t)
                              x y scale rotation
                              (Token.z_index t) (Token.metadata t))).
  { intros t. apply moved_token_Takes. exists x, y, scale, rotation.
    split; [done|]. split; [done|].
    split; [by destruct (get data2 "scale")|].
    split; [by destruct (get data2 "rotation")|]. done. }
  rewrite (handle_token_moved_accepted d sid2 data2 st k token _ Hid2 Hk
             (Hfull token)).
  destruct (handle_token_moved_store d sid1 data1 st o1 H1)
    as [(k1 & t1 & t1' & Hid1' & Hk1 & Hm1 & ->) | (Hs1 & _)].
  - rewrite Hid1 in Hid1'. injection Hid1' as <-.
    rewrite Hk in Hk1. injection Hk1 as <-.
    cbn [store committed].
    rewrite (handle_token_moved_accepted d sid2 data2 _ k t1' _ Hid2
               (lookup_insert_eq _ _ _) (Hfull t1')).
    eexists _, _. split; [done|]. split; [done|].
    cbn. unfold set_tokens. cbn. rewrite insert_insert_eq.
    by destruct (moved_token_keeps _ _ _ _ Hm1) as (-> & -> & -> & ->).
  - rewrite Hs1.
    rewrite (handle_token_moved_accepted d sid2 data2 st k token _ Hid2 Hk
               (Hfull token)).
    by eexists _, _.
Qed.

Lemma token_moved_last_write_wins_witness :
  (handle_token_moved example_dialect "A" move_5 dungeon
     ≫= λ out, store <$> handle_token_moved example_dialect "B" move_5_full
                            (store out))
  = store <$> handle_token_moved example_dialect "B" move_5_full dungeon.
Proof.
  destruct (handle_token_moved example_dialect "A" move_5 dungeon)
    as [o1|] eqn:H1; [|discriminate H1].
  destruct (token_moved_last_write_wins example_dialect "A" "B" move_5
              move_5_full dungeon 5 1 2 45 3 o1)
    as (o2 & o12 & H2 & H12 & Heq); try reflexivity;
    [by eexists | exact H1 |].
  cbn. rewrite H12, H2. cbn. by rewrite Heq.
Defined.

Lemma related_add {A} (fk : A → Z) (parent : Z) (tbl : gmap Z A) (row : A) :
  related fk parent (<[next_id tbl := row]> tbl)
  = related fk parent tbl
    ++ (if bool_decide (fk row = parent) then [(next_id tbl, row)] else []).
Proof.
  unfold related. rewrite all_add, filter_app. f_equal.
  case_bool_decide as Hp.
  - by rewrite filter_cons_True.
  - by rewrite filter_cons_False.
Qed.

(** X24.  A drawing that was created is what the next scene detail shows:
    on its layer the list of drawings is the list of before with the new
    drawing, under its fresh id and with the values the columns took,
    added at the end; on every other layer the list is the one of
    before. *)
Theorem drawing_created_is_read_back
    (d : Dialect) (enforce_fk : bool) (sid : string)
    (data : gmap string json) (st : Store)
    (layer_id : Z) (drawing_type color : string) (stroke_width : Q)
    (req : Request) (r : Z * Layer.t) :
  required (bind_integer d) (get data "layer_id") = Takes layer_id →
  (enforce_fk = true → is_Some (layers st !! layer_id)) →
  required (bind_string d 20) (get data "type") = Takes drawing_type →
  required (bind_string d 20) (get data "color") = Takes color →
  with_default 1%Q (bind_float d) (get data "stroke_width")
  = Takes stroke_width →
  Layer.type r.2 = "player" ∨ user_role req = "admin" →
  ∃ out,
    handle_drawing_created d enforce_fk sid data st = Some out
    ∧ let st' := store out in
      let new := (next_id (drawings st),
                  Drawing.mk layer_id drawing_type (get data "points")
                             color stroke_width) in
      layer_data req st' r !! "drawings"
      = Some (JArr (drawing_json
                      <$> (related Drawing.layer_id r.1 (drawings st)
                           ++ (if bool_decide (layer_id = r.1)
                               then [new] else []))))
      ∧ layer_data req st' r !! "tokens" = layer_data req st r !! "tokens"
      ∧ layer_data req st' r !! "text_elements"
        = layer_data req st r !! "text_elements".
Proof.
  intros Hl Hfk Ht Hc Hw Hshow.
  rewrite (drawing_created_committed d enforce_fk sid data st
             layer_id drawing_type color stroke_width) by done.
  eexists. split; [done|]. intros st' new. subst st'.
  cbn [store committed].
  destruct (layer_data_detail req st r Hshow) as (-> & _ & ->).
  set (st' := set_drawings _ st).
  destruct (layer_data_detail req st' r Hshow) as (-> & -> & ->).
  split; [|done]. cbn. by rewrite related_add.
Qed.

Lemma drawing_created_is_read_back_witness :
  ∃ out,
    handle_drawing_created example_dialect true "A" (line_on 1) dungeon
    = Some out
    ∧ layer_data gm_request (store out)
        (1, Layer.mk 1 "Background" 0 "background" true) !! "drawings"
      = Some (JArr [drawing_json
                      (1, Drawing.mk 1 "line" line_points "#ff0000" 2)]).
Proof.
  assert (Hfk : true = true → is_Some (layers dungeon !! 1))
    by (intros _; by eexists).
  destruct (drawing_created_is_read_back example_dialect true "A" (line_on 1)
              dungeon 1 "line" "#ff0000" 2 gm_request
              (1, Layer.mk 1 "Background" 0 "background" true)
              eq_refl Hfk eq_refl eq_refl eq_refl (or_intror eq_refl))
    as (out & Hout & H & _).
  exists out. split; [exact Hout | exact H].
Defined.

(** X25.  A text element that was created is what the next scene detail
    shows: on its layer the list of text elements is the list of before
    with the new element, under its fresh id and with the values the
    columns took, added at the end; on every other layer the list is the
    one of before. *)
Theorem text_created_is_read_back
    (d : Dialect) (enforce_fk : bool) (sid : string)
    (data : gmap string json) (st : Store)
    (layer_id : Z) (x y : Q) (text : string) (font_size : Z)
    (color style : string) (req : Request) (r : Z * Layer.t) :
  required (bind_integer d) (get data "layer_id") = Takes layer_id →
  (enforce_fk = true → is_Some (layers st !! layer_id)) →
  required (bind_float d) (get data "x") = Takes x →
  required (bind_float d) (get data "y") = Takes y →
  required (bind_text d) (get data "text") = Takes text →
  with_default 12 (bind_integer d) (get data "font_size") = Takes font_size →
  with_default "#000000"%string (bind_string d 20) (get data "color")
  = Takes color →
  with_default "normal"%string (bind_string d 20) (get data "style")
  = Takes style →
  Layer.type r.2 = "player" ∨ user_role req = "admin" →
  ∃ out,
    handle_text_created d enforce_fk sid data st = Some out
    ∧ let st' := store out in
      let new := (next_id (text_elements st),
                  TextElement.mk layer_id x y text font_size color style) in
      layer_data req st' r !! "text_elements"
      = Some (JArr (text_json
                      <$> (related TextElement.layer_id r.1 (text_elements st)
                           ++ (if bool_decide (layer_id = r.1)
                               then [new] else []))))
      ∧ layer_data req st' r !! "tokens" = layer_data req st r !! "tokens"
      ∧ layer_data req st' r !! "drawings"
        = layer_data req st r !! "drawings".
Proof.
  intros Hl Hfk Hx Hy Ht Hf Hc Hs Hshow.
  rewrite (text_created_committed d enforce_fk sid data st
             layer_id x y text font_size color style) by done.
  eexists. split; [done|]. intros st' new. subst st'.
  cbn [store committed].
  destruct (layer_data_detail req st r Hshow) as (-> & -> & _).
  set (st' := set_text_elements _ st).
  destruct (layer_data_detail req st' r Hshow) as (-> & -> & ->).
  split; [|done]. cbn. by rewrite related_add.
Qed.

Lemma text_created_is_read_back_witness :
  ∃ out,
    handle_text_created example_dialect true "A" (note_on 2) dungeon
    = Some out
    ∧ layer_data player_request (store out)
        (2, Layer.mk 1 "Player" 1 "player" false) !! "text_elements"
      = Some (JArr [text_json
                      (1, TextElement.mk 2 1 2 "trap" 14 "#000000" "bold")]).
Proof.
  assert (Hfk : true = true → is_Some (layers dungeon !! 2))
    by (intros _; by eexists).
  destruct (text_created_is_read_back example_dialect true "A" (note_on 2)
              dungeon 2 1 2 "trap" 14 "#000000" "bold" player_request
              (2, Layer.mk 1 "Player" 1 "player" false)
              eq_refl Hfk eq_refl eq_refl eq_refl eq_refl eq_refl eq_refl
              (or_introl eq_refl))
    as (out & Hout & H & _).
  exists out. split; [exact Hout | exact H].
Defined.

(** X26.  drawing_created is not idempotent: the same accepted payload
    handled twice stores two drawings with the same columns under
    consecutive ids, and the second broadcast carries the second id. *)
Theorem drawing_created_twice
    (d : Dialect) (enforce_fk : bool) (sid : string)
    (data : gmap string json) (st : Store)
    (layer_id : Z) (drawing_type color : string) (stroke_width : Q) :
  required (bind_integer d) (get data "layer_id") = Takes layer_id →
  (enforce_fk = true → is_Some (layers st !! layer_id)) →
  required (bind_string d 20) (get data "type") = Takes drawing_type →
  required (bind_string d 20) (get data "color") = Takes color →
  with_default 1%Q (bind_float d) (get data "stroke_width")
  = Takes stroke_width →
  ∃ first second,
    handle_drawing_created d enforce_fk sid data st = Some first
    ∧ handle_drawing_created d enforce_fk sid data (store first) = Some second
    ∧ let k := next_id (drawings st) in
      let drawing := Drawing.mk layer_id drawing_type (get data "points")
                                color stroke_width in
      drawings st !! k = None ∧ drawings st !! (k + 1) = None
      ∧ drawings (store second)
        = <[k + 1 := drawing]> (<[k := drawing]> (drawings st))
      ∧ emitted second
        = [mkEmit "drawing_created" (<["id" := JInt (k + 1)]> data)
                  (Some sid)].
Proof.
  intros Hl Hfk Ht Hc Hw.
  rewrite (drawing_created_committed d enforce_fk sid data st
             layer_id drawing_type color stroke_width) by done.
  eexists _, _. split; [done|]. cbn [store committed].
  rewrite (drawing_created_committed d enforce_fk sid data _
             layer_id drawing_type color stroke_width) by done.
  split; [done|].
  cbn. rewrite next_id_insert.
  split; [apply next_id_fresh|]. split; [apply next_id_above; lia|]. done.
Qed.

Lemma drawing_created_twice_witness :
  (handle_drawing_created example_dialect true "A" (line_on 1) dungeon
     ≫= λ first, drawings ∘ store
                   <$> handle_drawing_created example_dialect true "A"
                         (line_on 1) (store first))
  = Some (<[2 := Drawing.mk 1 "line" line_points "#ff0000" 2]>
            (<[1 := Drawing.mk 1 "line" line_points "#ff0000" 2]> ∅)).
Proof.
  assert (Hfk : true = true → is_Some (layers dungeon !! 1))
    by (intros _; by eexists).
  destruct (drawing_created_twice example_dialect true "A" (line_on 1) dungeon
              1 "line" "#ff0000" 2 eq_refl Hfk eq_refl eq_refl eq_refl)
    as (first & second & H1 & H2 & _ & _ & H & _).
  rewrite H1. cbn. rewrite H2. cbn. by rewrite H.
Defined.

(** X27.  drawing_created and text_created only ever add: whatever the
    payload and whatever the store makes of its values, every drawing and
    text element stored before is stored unchanged after, at most the row
    under the next id is new, and each handler leaves every table but its
    own untouched. *)
Theorem created_handlers_only_add
    (d : Dialect) (enforce_fk : bool) (sid : string)
    (data : gmap string json) (st : Store) :
  (∀ out, handle_drawing_created d enforce_fk sid data st = Some out →
     (∀ k, k ≠ next_id (drawings st) →
           drawings (store out) !! k = drawings st !! k)
     ∧ drawings st !! next_id (drawings st) = None
     ∧ users (store out) = users st ∧ scenes (store out) = scenes st
     ∧ layers (store out) = layers st ∧ tokens (store out) = tokens st
     ∧ text_elements (store out) = text_elements st)
  ∧ (∀ out, handle_text_created d enforce_fk sid data st = Some out →
       (∀ k, k ≠ next_id (text_elements st) →
             text_elements (store out) !! k = text_elements st !! k)
       ∧ text_elements st !! next_id (text_elements st) = None
       ∧ users (store out) = users st ∧ scenes (store out) = scenes st
       ∧ layers (store out) = layers st ∧ tokens (store out) = tokens st
       ∧ drawings (store out) = drawings st).
Proof.
  unfold handle_drawing_created, handle_text_created. split.
  - intros out. destruct (new_drawing d enforce_fk data st) as [row| |];
      [| |done].
    + intros [= <-]. cbn. split; [|split; [apply next_id_fresh | done]].
      intros k Hk. by rewrite lookup_insert_ne.
    + intros [= <-]. cbn. split; [done|]. split; [apply next_id_fresh | done].
  - intros out. destruct (new_text_element d enforce_fk data st) as [row| |];
      [| |done].
    + intros [= <-]. cbn. split; [|split; [apply next_id_fresh | done]].
      intros k Hk. by rewrite lookup_insert_ne.
    + intros [= <-]. cbn. split; [done|]. split; [apply next_id_fresh | done].
Qed.

(** ** Further examples *)

Lemma get_token_from_request_found_witness :
  is_Some (get_token_from_request (Some "Bearer a b"))
  ∧ has_char Ascii.Space "a" = false
  ∧ get_token_from_request (Some "Basic a") = None.
Proof.
  destruct (get_token_from_request_found (Some "Bearer a b")) as (Hiff & Hsp & _).
  destruct (get_token_from_request_found (Some "Basic a")) as (Hno & _).
  split; [apply Hiff; by exists "a b"%string|].
  split; [by apply (Hsp "a"%string)|].
  destruct (get_token_from_request (Some "Basic a")) as [token|] eqn:Ht;
    [|done].
  destruct (proj1 Hno) as [rest Hrest]; [by eexists | discriminate].
Defined.

Lemma create_tables_once_witness :
  create_tables hash_example true "salt" None None dungeon = (dungeon, None)
  ∧ (create_tables hash_example true "other" None None
       (create_tables hash_example true "salt" None None empty_store).1).1
    = (create_tables hash_example true "salt" None None empty_store).1.
Proof.
  destruct (create_tables_once hash_example true "salt" "other" None None dungeon)
    as (_ & Hkeep & _).
  destruct (create_tables_once hash_example true "salt" "other" None None
              empty_store) as (_ & _ & Hagain).
  split; [|exact Hagain].
  apply Hkeep. exists 7, (User.mk "gm" "hash-of-secret" "admin" None).
  split; reflexivity.
Defined.

Lemma created_handlers_only_add_witness :
  ∃ out,
    handle_drawing_created example_dialect true "A" (line_on 1) dungeon
    = Some out
    ∧ drawings (store out) !! 7 = drawings dungeon !! 7.
Proof.
  destruct (handle_drawing_created example_dialect true "A" (line_on 1)
              dungeon) as [out|] eqn:Hout; [|discriminate Hout].
  destruct (created_handlers_only_add example_dialect true "A" (line_on 1)
              dungeon) as (H & _).
  exists out. split; [done|].
  destruct (H out Hout) as (Hk & _). apply Hk. discriminate.
Defined.
